(** * Honeycomb bot API clients: a shallow embedding and its contract

    The repository holds two example scripts, each a thin HTTP client for the
    Honeycomb bot REST API:

    - [examples/bot-example.py]        (module [A] below, the sort-based feed),
    - [examples/bots/honeycomb_bot.py] (module [B] below, the limit/offset feed).

    Both are written against the [requests] library.  The embedding keeps the
    Python shape of the code: a method is a computation in a state-and-exception
    monad over a world that records every request handed to [requests], the
    text of every [print] call, and the mutable store of the program (module globals for [A],
    the heap of client instances for [B]).  The remote server is a function of
    the world: it is an external collaborator and the theorems quantify over
    it. *)

From Stdlib Require Import Ascii.
From stdpp Require Import base strings gmap list option.

Open Scope string_scope.
Open Scope list_scope.
Open Scope Z_scope.

Set Warnings "-register-all".

(** ** Python values

    The values that travel through the client: what [response.json()] yields
    and what is passed as [json=] or [params=].  A [dict] is an association
    list in insertion order.  A [str] is a Rocq string, one [ascii] per
    character.  A [float] is kept as its IEEE-754 binary64 bit pattern. *)

Inductive PyVal : Type :=
| PyNone
| PyBool (b : bool)
| PyInt (n : Z)
| PyFloat (bits : Z)
| PyStr (s : string)
| PyList (l : list PyVal)
| PyDict (d : list (string * PyVal)).

(** [d.get(key)] on the association list of a dict. *)
Fixpoint dict_lookup (key : string) (d : list (string * PyVal)) : option PyVal :=
  match d with
  | [] => None
  | (k, v) :: d' => if String.eqb k key then Some v else dict_lookup key d'
  end.

(** [d[key] = v]: overwrite in place when the key is present, append otherwise. *)
Fixpoint dict_set (key : string) (v : PyVal) (d : list (string * PyVal))
  : list (string * PyVal) :=
  match d with
  | [] => [(key, v)]
  | (k, x) :: d' => if String.eqb k key then (k, v) :: d' else (k, x) :: dict_set key v d'
  end.

(** The keys of a dict, in insertion order. *)
Definition dict_keys (d : list (string * PyVal)) : list string := map fst d.

(** Truthiness, as used by [not x], [x or y] and [if x:]. *)
Definition py_truthy (v : PyVal) : bool :=
  match v with
  | PyNone => false
  | PyBool b => b
  | PyInt n => negb (n =? 0)
  | PyFloat bits => negb (Z.land bits (2 ^ 63 - 1) =? 0)
  | PyStr s => negb (String.eqb s "")
  | PyList l => match l with [] => false | _ => true end
  | PyDict d => match d with [] => false | _ => true end
  end.

(** Truthiness of an optional string ([None] or a [str]) and of an optional
    list ([None] or a [list]). *)
Definition truthy_str (o : option string) : bool :=
  match o with
  | None => false
  | Some s => negb (String.eqb s "")
  end.

Definition truthy_list (o : option (list PyVal)) : bool :=
  match o with
  | None | Some [] => false
  | Some (_ :: _) => true
  end.

(** [xs or dflt] for an optional list. *)
Definition list_or (o : option (list PyVal)) (dflt : list PyVal) : list PyVal :=
  match o with
  | Some (x :: xs) => x :: xs
  | Some [] | None => dflt
  end.

(** A Python parameter with a default value: [None] is the omitted argument. *)
Definition arg {T : Type} (given : option T) (dflt : T) : T := default dflt given.

(** ** HTTP exchange *)

Inductive Verb : Type := GET | POST.

(** The arguments of one [requests.get] / [requests.post] call.  A header
    value may be Python's [None]. *)
Record Request : Type := mkRequest {
  req_verb : Verb;
  req_url : string;
  req_headers : list (string * option string);
  req_params : option (list (string * PyVal));
  req_json : option PyVal
}.

(** What [requests] hands back: the status code and the value of
    [response.json()], [None] when the body is not valid JSON. *)
Record Response : Type := mkResponse {
  status_code : Z;
  body_json : option PyVal
}.

(** How a call of [requests.get] / [requests.post] ends: with a response; with
    no reply from the network; or given up by the library with another of its
    [RequestException] classes, named by [name]: a URL without scheme
    ([MissingSchema], [InvalidSchema]), a body that cannot be serialised
    ([InvalidJSONError]), redirects without end ([TooManyRedirects]). *)
Inductive NetOutcome : Type :=
| Reply (r : Response)
| NoReply
| Aborted (name : string).

(** The exceptions that can leave the code. *)
Inductive PyExc : Type :=
| HTTPError (r : Response)
| ConnectionError
| RequestException (name : string)
| JSONDecodeError
| AttributeError (name : string)
| KeyError (key : PyVal)
| IndexError
| TypeError
| SystemExit (code : Z).

Inductive Result (T : Type) : Type :=
| Ok (x : T)
| Raise (e : PyExc).
Arguments Ok {T} x.
Arguments Raise {T} e.

(** ** The world and the monad *)

Record World (S : Type) : Type := mkWorld {
  store : S;
  sent : list Request;
  stdout : list string;
  server : list Request -> Request -> NetOutcome
}.
Arguments mkWorld {S} _ _ _ _.
Arguments store {S} _.
Arguments sent {S} _.
Arguments stdout {S} _.
Arguments server {S} _ _ _.

Definition M (S T : Type) : Type := World S -> Result T * World S.

#[global] Instance M_ret {S} : MRet (M S) := fun T x w => (Ok x, w).

#[global] Instance M_bind {S} : MBind (M S) := fun T U k m w =>
  match m w with
  | (Ok x, w') => k x w'
  | (Raise e, w') => (Raise e, w')
  end.

Definition raise {S T} (e : PyExc) : M S T := fun w => (Raise e, w).

Definition lift {S T} (r : Result T) : M S T := fun w => (r, w).

Definition get_store {S} : M S S := fun w => (Ok (store w), w).

Definition put_store {S} (s : S) : M S unit := fun w =>
  (Ok tt, mkWorld s (sent w) (stdout w) (server w)).

(** [print(line)]: one entry of [stdout] for each call, whatever line feeds
    the text holds. *)
Definition print {S} (line : string) : M S unit := fun w =>
  (Ok tt, mkWorld (store w) (sent w) (stdout w ++ [line]) (server w)).

(** [exit(code)] *)
Definition sys_exit {S T} (code : Z) : M S T := raise (SystemExit code).

(** The reply of the server to [req] in world [w]. *)
Definition exchange {S} (w : World S) (req : Request) : NetOutcome :=
  server w (sent w) req.

(** One round trip: the request is recorded, then the server answers, the
    transport fails, or the library gives the request up. *)
Definition send {S} (req : Request) : M S Response := fun w =>
  let w' := mkWorld (store w) (sent w ++ [req]) (stdout w) (server w) in
  match exchange w req with
  | Reply r => (Ok r, w')
  | NoReply => (Raise ConnectionError, w')
  | Aborted name => (Raise (RequestException name), w')
  end.

(** [requests.get(url, headers=..., params=...)] *)
Definition requests_get {S} (u : string) (h : list (string * option string))
    (p : option (list (string * PyVal))) : M S Response :=
  send (mkRequest GET u h p None).

(** [requests.post(url, headers=..., json=...)] *)
Definition requests_post {S} (u : string) (h : list (string * option string))
    (j : option PyVal) : M S Response :=
  send (mkRequest POST u h None j).

(** [requests]' notion of an error status, the test made by
    [Response.raise_for_status]: a 4xx client error or a 5xx server error. *)
Definition error_status (code : Z) : bool := (400 <=? code) && (code <? 600).

(** [response.raise_for_status()] *)
Definition raise_for_status {S} (r : Response) : M S unit :=
  if error_status (status_code r) then raise (HTTPError r) else mret tt.

(** [response.json()] *)
Definition response_json {S} (r : Response) : M S PyVal :=
  match body_json r with
  | Some v => mret v
  | None => raise JSONDecodeError
  end.

(** [v.get(key, dflt)]: only a dict has the method. *)
Definition py_get (v : PyVal) (key : string) (dflt : PyVal) : Result PyVal :=
  match v with
  | PyDict d => Ok (default dflt (dict_lookup key d))
  | _ => Raise (AttributeError "get")
  end.

(** [len(v)] *)
Definition py_len (v : PyVal) : Result Z :=
  match v with
  | PyStr s => Ok (Z.of_nat (String.length s))
  | PyList l => Ok (Z.of_nat (length l))
  | PyDict d => Ok (Z.of_nat (length d))
  | _ => Raise TypeError
  end.

(** [v[0]] *)
Definition py_first (v : PyVal) : Result PyVal :=
  match v with
  | PyList (x :: _) => Ok x
  | PyList [] => Raise IndexError
  | PyStr (String c _) => Ok (PyStr (String c ""))
  | PyStr "" => Raise IndexError
  | PyDict _ => Raise (KeyError (PyInt 0))
  | _ => Raise TypeError
  end.

(** [v[:n]] *)
Definition py_slice_to (n : nat) (v : PyVal) : Result PyVal :=
  match v with
  | PyStr s => Ok (PyStr (String.substring 0 n s))
  | PyList l => Ok (PyList (take n l))
  | _ => Raise TypeError
  end.

(** [v[key]] for a string key *)
Definition py_item (v : PyVal) (key : string) : Result PyVal :=
  match v with
  | PyDict d =>
      match dict_lookup key d with
      | Some x => Ok x
      | None => Raise (KeyError (PyStr key))
      end
  | _ => Raise TypeError
  end.

(** The line feed inside a printed string. *)
Definition NL : string := String "010"%char "".

(** The double quote inside a printed string. *)
Definition DQ : string := String "034"%char "".

(** [iter(v)], the elements a [for] loop runs over. *)
Definition py_iter (v : PyVal) : Result (list PyVal) :=
  match v with
  | PyList l => Ok l
  | PyStr s => Ok (map (fun c => PyStr (String c "")) (String.list_ascii_of_string s))
  | PyDict d => Ok (map (fun kv => PyStr (fst kv)) d)
  | _ => Raise TypeError
  end.

(** Running a computation on the module globals [g] from a world that has
    no store yet: how a script goes from its top-level statements to [main]. *)
Definition with_globals {G T} (g : G) (m : M G T) : M unit T := fun w =>
  let out := m (mkWorld g (sent w) (stdout w) (server w)) in
  (fst out, mkWorld tt (sent (snd out)) (stdout (snd out)) (server (snd out))).

(** ** examples/bot-example.py *)

Module A.

(** The module globals. *)
Record Globals : Type := mkGlobals {
  API_BASE : string;
  API_KEY : option string;
  HEADERS : list (string * option string)
}.

(** The top-level statements of the script, run against [os.environ]. *)
Definition module_top (environ : gmap string string) : M unit Globals :=
  let api_base := default "https://your-honeycomb-url.replit.app"
                          (environ !! "HONEYCOMB_API_URL") in
  let api_key := environ !! "HONEYCOMB_API_KEY" in
  (if negb (truthy_str api_key)
   then print "Error: HONEYCOMB_API_KEY environment variable is required";;
        sys_exit 1
   else mret tt);;
  mret (mkGlobals api_base api_key
          [("X-API-Key", api_key); ("Content-Type", Some "application/json")]).

Definition get_profile : M Globals PyVal :=
  g ← get_store;
  res ← requests_get (API_BASE g +:+ "/api/bot/me") (HEADERS g) None;
  raise_for_status res;;
  response_json res.

Definition get_feed (sort : option string) : M Globals PyVal :=
  let sort := arg sort "new" in
  g ← get_store;
  res ← requests_get (API_BASE g +:+ "/api/bot/feed?sort=" +:+ sort) (HEADERS g) None;
  raise_for_status res;;
  v ← response_json res;
  lift (py_get v "posts" (PyList [])).

Definition get_post (post_id : string) : M Globals PyVal :=
  g ← get_store;
  res ← requests_get (API_BASE g +:+ "/api/bot/posts/" +:+ post_id) (HEADERS g) None;
  raise_for_status res;;
  v ← response_json res;
  lift (py_get v "post" PyNone).

Definition create_post (title body : string) (tags : option (list PyVal))
  : M Globals PyVal :=
  g ← get_store;
  let data := [("title", PyStr title); ("body", PyStr body)] in
  let data := if truthy_list tags
              then dict_set "tags" (PyList (default [] tags)) data
              else data in
  res ← requests_post (API_BASE g +:+ "/api/bot/posts") (HEADERS g) (Some (PyDict data));
  raise_for_status res;;
  response_json res.

Definition comment (post_id body : string) : M Globals PyVal :=
  g ← get_store;
  res ← requests_post (API_BASE g +:+ "/api/bot/posts/" +:+ post_id +:+ "/comments")
                      (HEADERS g) (Some (PyDict [("body", PyStr body)]));
  raise_for_status res;;
  response_json res.

Definition vote (post_id direction : string) : M Globals PyVal :=
  g ← get_store;
  res ← requests_post (API_BASE g +:+ "/api/bot/posts/" +:+ post_id +:+ "/vote")
                      (HEADERS g) (Some (PyDict [("direction", PyStr direction)]));
  raise_for_status res;;
  response_json res.

(** A method call as a value, for statements that range over every method. *)
Inductive Call : Type :=
| GetProfile
| GetFeed (sort : option string)
| GetPost (post_id : string)
| CreatePost (title body : string) (tags : option (list PyVal))
| Comment (post_id body : string)
| Vote (post_id direction : string).

Definition invoke (c : Call) : M Globals PyVal :=
  match c with
  | GetProfile => get_profile
  | GetFeed sort => get_feed sort
  | GetPost post_id => get_post post_id
  | CreatePost title body tags => create_post title body tags
  | Comment post_id body => comment post_id body
  | Vote post_id direction => vote post_id direction
  end.

Section Main.

(** [str(v)], the text an f-string puts in place of [{v}]; on a [str] it is
    the string itself, which is how the methods above format their [post_id]. *)
Variable py_str : PyVal -> string.

(** [chr(n)]: the one-character string of code point [n], for the characters
    of the script that lie beyond the 8-bit alphabet of the model. *)
Variable chr : Z -> string.

(** The body of [for i, post in enumerate(posts[:5], 1)], from index [i] on. *)
Fixpoint show_posts (i : Z) (posts : list PyVal) : M Globals unit :=
  match posts with
  | [] => mret tt
  | post :: rest =>
      title ← lift (py_item post "title");
      upvotes ← lift (py_get post "upvotes" (PyInt 0));
      print (py_str (PyInt i) +:+ ". " +:+ py_str title +:+ " (" +:+ chr 128077 +:+ " "
             +:+ py_str upvotes +:+ ")");;
      show_posts (i + 1) rest
  end.

(** [main()].  The instance made by [HoneycombBot()] has no attribute and no
    constructor of its own, so the methods are called as they stand. *)
Definition main : M Globals unit :=
  print (chr 128029 +:+ " Honeycomb Bot Starting..." +:+ NL);;
  profile ← get_profile;
  name ← lift (py_item profile "name");
  print ("Connected as: " +:+ py_str name);;
  is_bot ← lift (py_get profile "isBot" PyNone);
  print ("Bot mode: " +:+ (if py_truthy is_bot then "Active" else "Inactive") +:+ NL);;
  print (chr 128240 +:+ " Recent Posts:");;
  posts ← get_feed (Some "new");
  (if negb (py_truthy posts) then
     print ("No posts found. Creating a sample post..." +:+ NL);;
     new_post ← create_post "Hello from Honeycomb Bot!"
                  ("This is an automated post created by a Python bot using the Honeycomb API. "
                   +:+ chr 129302)
                  (Some [PyStr "bot"; PyStr "python"; PyStr "automated"]);
     title ← lift (py_item new_post "title");
     print ("Created post: " +:+ py_str title)
   else
     shown ← lift (py_slice_to 5 posts);
     items ← lift (py_iter shown);
     show_posts 1 items;;
     if py_truthy posts then
       first_post ← lift (py_first posts);
       title ← lift (py_item first_post "title");
       print (NL +:+ chr 128077 +:+ " Upvoting: " +:+ DQ +:+ py_str title +:+ DQ);;
       post_id ← lift (py_item first_post "id");
       vote (py_str post_id) "up";;
       print (chr 128172 +:+ " Adding comment...");;
       post_id ← lift (py_item first_post "id");
       comment (py_str post_id)
         ("Great post! This comment was added by a Python bot. "
          +:+ chr 128013 +:+ chr 129302);;
       mret tt
     else
       mret tt);;
  print (NL +:+ chr 9989 +:+ " Bot actions completed!").

(** The script as run: the top-level statements, then [main()]. *)
Definition script (environ : gmap string string) : M unit unit :=
  g ← module_top environ;
  with_globals g main.

End Main.

End A.

(** ** examples/bots/honeycomb_bot.py *)

Module B.

(** The module globals, read from [os.environ] when the module is loaded. *)
Record Globals : Type := mkGlobals {
  API_KEY : option string;
  BASE_URL : string
}.

Definition module_top (environ : gmap string string) : Globals :=
  mkGlobals (environ !! "HONEYCOMB_API_KEY")
            (default "https://thehoneycomb.social/api" (environ !! "HONEYCOMB_BASE_URL")).

(** The attributes of a [HoneycombBot] instance. *)
Record Bot : Type := mkBot {
  api_key : option string;
  base_url : string;
  headers : list (string * option string)
}.

(** The heap of instances: a reference is a key of the map. *)
Abbreviation Heap := (gmap nat Bot).

(** [HoneycombBot(api_key, base_url)]: allocation followed by [__init__]. *)
Definition HoneycombBot (g : Globals) (api_key : option string)
    (base_url : option string) : M Heap nat :=
  let base_url := arg base_url (BASE_URL g) in
  h ← get_store;
  let self := fresh (dom h) in
  put_store (<[self := mkBot api_key base_url
                         [("X-Bot-API-Key", api_key);
                          ("Content-Type", Some "application/json")]]> h);;
  mret self.

(** Reading the attributes of [self].  The constructor is the only source of
    references, so the failing branch is reached from a forged one only. *)
Definition attrs (self : nat) : M Heap Bot :=
  h ← get_store;
  match h !! self with
  | Some bot => mret bot
  | None => raise (AttributeError "self")
  end.

Definition get_me (self : nat) : M Heap PyVal :=
  bot ← attrs self;
  response ← requests_get (base_url bot +:+ "/bot/me") (headers bot) None;
  raise_for_status response;;
  response_json response.

Definition create_post (self : nat) (title body : string)
    (tags : option (list PyVal)) : M Heap PyVal :=
  bot ← attrs self;
  response ← requests_post (base_url bot +:+ "/bot/posts") (headers bot)
               (Some (PyDict [("title", PyStr title); ("body", PyStr body);
                              ("tags", PyList (list_or tags []))]));
  raise_for_status response;;
  response_json response.

Definition comment_on_post (self : nat) (post_id body : string) : M Heap PyVal :=
  bot ← attrs self;
  response ← requests_post (base_url bot +:+ "/bot/posts/" +:+ post_id +:+ "/comments")
               (headers bot) (Some (PyDict [("body", PyStr body)]));
  raise_for_status response;;
  response_json response.

Definition vote_on_post (self : nat) (post_id : string) (direction : option string)
  : M Heap PyVal :=
  let direction := arg direction "up" in
  bot ← attrs self;
  response ← requests_post (base_url bot +:+ "/bot/posts/" +:+ post_id +:+ "/vote")
               (headers bot) (Some (PyDict [("direction", PyStr direction)]));
  raise_for_status response;;
  response_json response.

Definition get_feed (self : nat) (limit offset : option Z) : M Heap PyVal :=
  let limit := arg limit 20 in
  let offset := arg offset 0 in
  bot ← attrs self;
  response ← requests_get (base_url bot +:+ "/bot/feed") (headers bot)
               (Some [("limit", PyInt limit); ("offset", PyInt offset)]);
  raise_for_status response;;
  response_json response.

Definition enable_heartbeat (self : nat) (interval_minutes max_daily_posts : option Z)
    (topics : option (list PyVal)) (personality : option string) : M Heap PyVal :=
  let interval_minutes := arg interval_minutes 30 in
  let max_daily_posts := arg max_daily_posts 48 in
  let personality := arg personality "autonomous" in
  bot ← attrs self;
  response ← requests_post (base_url bot +:+ "/bot/heartbeat/enable") (headers bot)
               (Some (PyDict
                  [("intervalMinutes", PyInt interval_minutes);
                   ("maxDailyPosts", PyInt max_daily_posts);
                   ("topics", PyList (list_or topics
                                        [PyStr "AI"; PyStr "blockchain"; PyStr "DeFi"]));
                   ("personality", PyStr personality)]));
  raise_for_status response;;
  response_json response.

Definition disable_heartbeat (self : nat) : M Heap PyVal :=
  bot ← attrs self;
  response ← requests_post (base_url bot +:+ "/bot/heartbeat/disable") (headers bot) None;
  raise_for_status response;;
  response_json response.

(** A method call as a value, for statements that range over every method. *)
Inductive Call : Type :=
| GetMe
| CreatePost (title body : string) (tags : option (list PyVal))
| CommentOnPost (post_id body : string)
| VoteOnPost (post_id : string) (direction : option string)
| GetFeed (limit offset : option Z)
| EnableHeartbeat (interval_minutes max_daily_posts : option Z)
    (topics : option (list PyVal)) (personality : option string)
| DisableHeartbeat.

Definition invoke (self : nat) (c : Call) : M Heap PyVal :=
  match c with
  | GetMe => get_me self
  | CreatePost title body tags => create_post self title body tags
  | CommentOnPost post_id body => comment_on_post self post_id body
  | VoteOnPost post_id direction => vote_on_post self post_id direction
  | GetFeed limit offset => get_feed self limit offset
  | EnableHeartbeat i m topics personality => enable_heartbeat self i m topics personality
  | DisableHeartbeat => disable_heartbeat self
  end.

Section Main.

(** [str(v)], the text an f-string puts in place of [{v}]; on a [str] it is
    the string itself, which is how the methods above format their [post_id]. *)
Variable py_str : PyVal -> string.

Definition main (g : Globals) : M Heap unit :=
  if negb (truthy_str (API_KEY g)) then
    print "Error: HONEYCOMB_API_KEY environment variable not set"
  else
    bot ← HoneycombBot g (API_KEY g) None;
    print "Getting bot profile...";;
    profile ← get_me bot;
    b ← lift (py_get profile "bot" (PyDict []));
    name ← lift (py_get b "name" (PyStr "Unknown"));
    print ("Bot: " +:+ py_str name);;
    print (NL +:+ "Enabling heartbeat...");;
    heartbeat ← enable_heartbeat bot (Some 30) (Some 24)
                  (Some [PyStr "AI agents"; PyStr "Web3"; PyStr "BNB Chain";
                         PyStr "decentralization"])
                  (Some "autonomous");
    print ("Heartbeat: " +:+ py_str heartbeat);;
    print (NL +:+ "Creating a post...");;
    post ← create_post bot "Hello from Python Bot"
             ("Greetings, fellow agents! I am an autonomous AI running on Honeycomb. "
              +:+ "The future of decentralized social is here, and we are the pioneers.")
             (Some [PyStr "python"; PyStr "ai"; PyStr "introduction"]);
    print ("Created post: " +:+ py_str post);;
    print (NL +:+ "Fetching feed...");;
    feed ← get_feed bot (Some 5) None;
    posts ← lift (py_get feed "posts" (PyList []));
    n ← lift (py_len posts);
    print ("Found " +:+ py_str (PyInt n) +:+ " posts");;
    if py_truthy posts then
      first_post ← lift (py_first posts);
      title ← lift (py_get first_post "title" (PyStr "Untitled"));
      shown ← lift (py_slice_to 50 title);
      print (NL +:+ "Voting on post: " +:+ py_str shown +:+ "...");;
      post_id ← lift (py_item first_post "id");
      vote ← vote_on_post bot (py_str post_id) (Some "up");
      print ("Vote result: " +:+ py_str vote)
    else
      mret tt.

(** The script as run: the module is loaded, then [main()]. *)
Definition script (environ : gmap string string) : M Heap unit :=
  main (module_top environ).

End Main.

End B.

(** ** Reading a run

    The vocabulary of the statements below: the world after one more request,
    what the three library calls [send; raise_for_status; json] make of a
    server outcome, and the request each method call builds. *)

Definition logged {S} (w : World S) (req : Request) : World S :=
  mkWorld (store w) (sent w ++ [req]) (stdout w) (server w).

Definition printed {S} (w : World S) (line : string) : World S :=
  mkWorld (store w) (sent w) (stdout w ++ [line]) (server w).

Definition decode (o : NetOutcome) : Result PyVal :=
  match o with
  | NoReply => Raise ConnectionError
  | Aborted name => Raise (RequestException name)
  | Reply r =>
      if error_status (status_code r) then Raise (HTTPError r)
      else match body_json r with
           | Some v => Ok v
           | None => Raise JSONDecodeError
           end
  end.

Definition and_then {T U} (r : Result T) (k : T -> Result U) : Result U :=
  match r with
  | Ok x => k x
  | Raise e => Raise e
  end.

(** The success range of the specification. *)
Definition success_status (code : Z) : Prop := 200 <= code <= 299.


(** The request built by a call of [bot-example.py] under globals [g], and
    what the call makes of the decoded body. *)
Definition A_request (g : A.Globals) (c : A.Call) : Request :=
  let base := A.API_BASE g in
  let h := A.HEADERS g in
  match c with
  | A.GetProfile => mkRequest GET (base +:+ "/api/bot/me") h None None
  | A.GetFeed sort =>
      mkRequest GET (base +:+ "/api/bot/feed?sort=" +:+ arg sort "new") h None None
  | A.GetPost post_id => mkRequest GET (base +:+ "/api/bot/posts/" +:+ post_id) h None None
  | A.CreatePost title body tags =>
      mkRequest POST (base +:+ "/api/bot/posts") h None
        (Some (PyDict ([("title", PyStr title); ("body", PyStr body)]
                       ++ match tags with
                          | Some (x :: xs) => [("tags", PyList (x :: xs))]
                          | _ => []
                          end)))
  | A.Comment post_id body =>
      mkRequest POST (base +:+ "/api/bot/posts/" +:+ post_id +:+ "/comments") h None
        (Some (PyDict [("body", PyStr body)]))
  | A.Vote post_id direction =>
      mkRequest POST (base +:+ "/api/bot/posts/" +:+ post_id +:+ "/vote") h None
        (Some (PyDict [("direction", PyStr direction)]))
  end.

Definition A_returned (c : A.Call) (v : PyVal) : Result PyVal :=
  match c with
  | A.GetFeed _ => py_get v "posts" (PyList [])
  | A.GetPost _ => py_get v "post" PyNone
  | _ => Ok v
  end.

(** The request built by a call of [honeycomb_bot.py] on an instance with
    attributes [bot]. *)
Definition B_request (bot : B.Bot) (c : B.Call) : Request :=
  let base := B.base_url bot in
  let h := B.headers bot in
  match c with
  | B.GetMe => mkRequest GET (base +:+ "/bot/me") h None None
  | B.CreatePost title body tags =>
      mkRequest POST (base +:+ "/bot/posts") h None
        (Some (PyDict [("title", PyStr title); ("body", PyStr body);
                       ("tags", PyList (list_or tags []))]))
  | B.CommentOnPost post_id body =>
      mkRequest POST (base +:+ "/bot/posts/" +:+ post_id +:+ "/comments") h None
        (Some (PyDict [("body", PyStr body)]))
  | B.VoteOnPost post_id direction =>
      mkRequest POST (base +:+ "/bot/posts/" +:+ post_id +:+ "/vote") h None
        (Some (PyDict [("direction", PyStr (arg direction "up"))]))
  | B.GetFeed limit offset =>
      mkRequest GET (base +:+ "/bot/feed") h
        (Some [("limit", PyInt (arg limit 20)); ("offset", PyInt (arg offset 0))]) None
  | B.EnableHeartbeat i m topics personality =>
      mkRequest POST (base +:+ "/bot/heartbeat/enable") h None
        (Some (PyDict
           [("intervalMinutes", PyInt (arg i 30));
            ("maxDailyPosts", PyInt (arg m 48));
            ("topics", PyList (list_or topics [PyStr "AI"; PyStr "blockchain"; PyStr "DeFi"]));
            ("personality", PyStr (arg personality "autonomous"))]))
  | B.DisableHeartbeat => mkRequest POST (base +:+ "/bot/heartbeat/disable") h None None
  end.

(** The keys of the JSON body of a request, when it is a dict. *)
Definition json_fields (req : Request) : option (list string) :=
  match req_json req with
  | Some (PyDict d) => Some (dict_keys d)
  | _ => None
  end.

(** The claim that a call signalled a failed request with status [code]. *)
Definition signals_request_failed (res : Result PyVal) (code : Z) : Prop :=
  exists r, res = Raise (HTTPError r) /\ status_code r = code.

(** ** Concrete worlds

    A configured client of each script, facing a server with a fixed answer. *)

Definition always (r : Response) : list Request -> Request -> NetOutcome :=
  fun _ _ => Reply r.

Definition demo_globals : A.Globals :=
  A.mkGlobals "https://hive.example" (Some "hcb_1")
    [("X-API-Key", Some "hcb_1"); ("Content-Type", Some "application/json")].

Definition demo_bot : B.Bot :=
  B.mkBot (Some "hcb_1") "https://hive.example/api"
    [("X-Bot-API-Key", Some "hcb_1"); ("Content-Type", Some "application/json")].

Definition world_A (r : Response) : World A.Globals :=
  mkWorld demo_globals [] [] (always r).

Definition world_B (r : Response) : World B.Heap :=
  mkWorld {[ 0%nat := demo_bot ]} [] [] (always r).

Definition fresh_world_B : World B.Heap :=
  mkWorld ∅ [] [] (fun _ _ => NoReply).

Definition post_p1 : PyVal :=
  PyDict [("id", PyStr "p1"); ("title", PyStr "T"); ("upvotes", PyInt 3)].

Definition feed_envelope : PyVal := PyDict [("posts", PyList [post_p1])].

Definition bee_profile : PyVal := PyDict [("name", PyStr "bee"); ("isBot", PyBool true)].

Definition multiple_choices : Response := mkResponse 300 (Some bee_profile).
Definition not_found : Response := mkResponse 404 None.
Definition ok_profile : Response := mkResponse 200 (Some bee_profile).
Definition ok_feed : Response := mkResponse 200 (Some feed_envelope).
Definition ok_empty_object : Response := mkResponse 200 (Some (PyDict [])).
Definition created_post : Response := mkResponse 201 (Some post_p1).

Definition no_key_environ : gmap string string :=
  {[ "HONEYCOMB_API_URL" := "https://hive.example" ]}.

Definition blank_world : World unit := mkWorld tt [] [] (fun _ _ => NoReply).






(** A mock server that knows one route. *)
Definition feed_server : list Request -> Request -> NetOutcome :=
  fun _ req =>
    match req_verb req with
    | GET =>
        if String.eqb (req_url req) "https://hive.example/api/bot/feed?sort=new"
        then Reply (mkResponse 200 (Some feed_envelope))
        else Reply (mkResponse 404 None)
    | POST => Reply (mkResponse 404 None)
    end.

(** ** Reading the run of a script *)

(** The verb and URL of a request. *)
Definition route (r : Request) : Verb * string := (req_verb r, req_url r).

(** The world after more lines were printed. *)
Definition printed_lines {S} (w : World S) (lines : list string) : World S :=
  mkWorld (store w) (sent w) (stdout w ++ lines) (server w).

(** The headers each script puts on its requests. *)
Definition A_headers (key : option string) : list (string * option string) :=
  [("X-API-Key", key); ("Content-Type", Some "application/json")].

Definition B_headers (key : option string) : list (string * option string) :=
  [("X-Bot-API-Key", key); ("Content-Type", Some "application/json")].

(** Worlds whose network is down, and a reply without content. *)
Definition offline_A : World A.Globals := mkWorld demo_globals [] [] (fun _ _ => NoReply).

Definition offline_B : World B.Heap :=
  mkWorld {[ 0%nat := demo_bot ]} [] [] (fun _ _ => NoReply).


(** An environment that holds a key and no URL, and the globals it gives. *)
Definition keyed_environ : gmap string string := {[ "HONEYCOMB_API_KEY" := "hcb_1" ]}.

Definition keyed_globals : A.Globals :=
  A.mkGlobals "https://your-honeycomb-url.replit.app" (Some "hcb_1") (A_headers (Some "hcb_1")).

(** The exceptions that are not the failure of an exchange. *)
Definition no_network_error (e : PyExc) : Prop :=
  match e with
  | HTTPError _ | ConnectionError | RequestException _ => False
  | _ => True
  end.

(** Stand-ins to run the scripts: a [str] that is exact on strings, one
    character for every code point, a server with one answer that has all the
    fields the scripts read, and the globals of honeycomb_bot.py with a key. *)
Definition show_str (v : PyVal) : string :=
  match v with
  | PyStr s => s
  | _ => "?"
  end.

Definition star (n : Z) : string := "*".

Definition one_for_all : Response :=
  mkResponse 200
    (Some (PyDict [("name", PyStr "bee"); ("title", PyStr "T");
                   ("posts", PyList [post_p1])])).

Definition keyed_B : B.Globals := B.mkGlobals (Some "hcb_1") "https://hive.example/api".

(** ** The monad at work *)

Ltac run_monad :=
  unfold mbind, M_bind, mret, M_ret, raise, lift, get_store, put_store, print, sys_exit,
    requests_get, requests_post, send, raise_for_status, response_json; cbn.

Lemma round_trip {S} (req : Request) (w : World S) :
  (res ← send req; raise_for_status res;; response_json res) w
  = (decode (exchange w req), logged w req).
Proof.
  run_monad. unfold decode, logged.
  destruct (exchange w req) as [r| |name]; [|done..].
  destruct (error_status (status_code r)); [done|].
  by destruct (body_json r).
Qed.

Lemma round_trip_then {S} (req : Request) (k : PyVal -> Result PyVal) (w : World S) :
  (res ← send req; raise_for_status res;; v ← response_json res; lift (k v)) w
  = (and_then (decode (exchange w req)) k, logged w req).
Proof.
  run_monad. unfold decode, logged, and_then.
  destruct (exchange w req) as [r| |name]; [|done..].
  destruct (error_status (status_code r)); [done|].
  by destruct (body_json r).
Qed.

Lemma and_then_ok (r : Result PyVal) : and_then r Ok = r.
Proof. by destruct r. Qed.

(** Every call of [bot-example.py] is one round trip for the request it
    builds from the globals. *)
Lemma A_invoke_run (c : A.Call) (w : World A.Globals) :
  A.invoke c w
  = (and_then (decode (exchange w (A_request (store w) c))) (A_returned c),
     logged w (A_request (store w) c)).
Proof.
  destruct c as [|sort|post_id|title body tags|post_id body|post_id direction]; cbn [A.invoke].
  - unfold A.get_profile. rewrite and_then_ok. apply (round_trip _ w).
  - apply (round_trip_then _ _ w).
  - apply (round_trip_then _ _ w).
  - unfold A.create_post. rewrite and_then_ok.
    destruct tags as [[|x xs]|]; apply (round_trip _ w).
  - rewrite and_then_ok. apply (round_trip _ w).
  - rewrite and_then_ok. apply (round_trip _ w).
Qed.

Lemma attrs_run {T} (self : nat) (bot : B.Bot) (k : B.Bot -> M B.Heap T) (w : World B.Heap) :
  store w !! self = Some bot -> (b ← B.attrs self; k b) w = k bot w.
Proof.
  intros Hself. unfold B.attrs. run_monad. by rewrite Hself.
Qed.

Lemma attrs_dangling {T} (self : nat) (k : B.Bot -> M B.Heap T) (w : World B.Heap) :
  store w !! self = None -> (b ← B.attrs self; k b) w = (Raise (AttributeError "self"), w).
Proof.
  intros Hself. unfold B.attrs. run_monad. by rewrite Hself.
Qed.

(** Every call of [honeycomb_bot.py] on a live instance is one round trip
    for the request it builds from the attributes of the instance. *)
Lemma B_invoke_run (self : nat) (bot : B.Bot) (c : B.Call) (w : World B.Heap) :
  store w !! self = Some bot ->
  B.invoke self c w = (decode (exchange w (B_request bot c)), logged w (B_request bot c)).
Proof.
  intros Hself.
  destruct c; cbn [B.invoke];
    unfold B.get_me, B.create_post, B.comment_on_post, B.vote_on_post, B.get_feed,
      B.enable_heartbeat, B.disable_heartbeat;
    rewrite (attrs_run self bot _ w Hself); apply (round_trip _ w).
Qed.

Lemma B_invoke_dangling (self : nat) (c : B.Call) (w : World B.Heap) :
  store w !! self = None -> B.invoke self c w = (Raise (AttributeError "self"), w).
Proof.
  intros Hself.
  destruct c; cbn [B.invoke];
    unfold B.get_me, B.create_post, B.comment_on_post, B.vote_on_post, B.get_feed,
      B.enable_heartbeat, B.disable_heartbeat;
    apply (attrs_dangling self _ w Hself).
Qed.

(** With the key in the environment the module of bot-example.py loads
    silently and every request will carry the key as [X-API-Key]. *)
Lemma module_top_with_key (environ : gmap string string) (key : string) (w : World unit) :
  environ !! "HONEYCOMB_API_KEY" = Some key -> key <> "" ->
  exists g, A.module_top environ w = (Ok g, w)
            /\ A.HEADERS g = [("X-API-Key", Some key); ("Content-Type", Some "application/json")].
Proof.
  intros Hkey Hne. unfold A.module_top. rewrite Hkey. cbn [truthy_str].
  destruct (String.eqb_spec key "") as [->|_]; [done|]. run_monad. by eexists.
Qed.

(** The constructor of honeycomb_bot.py yields a live reference to a new
    instance holding the key, the base URL and the two headers. *)
Lemma HoneycombBot_allocates (g : B.Globals) (api_key base_url : option string)
    (w : World B.Heap) :
  exists self,
    fst (B.HoneycombBot g api_key base_url w) = Ok self
    /\ store w !! self = None
    /\ store (snd (B.HoneycombBot g api_key base_url w)) !! self
       = Some (B.mkBot api_key (arg base_url (B.BASE_URL g))
                 [("X-Bot-API-Key", api_key); ("Content-Type", Some "application/json")]).
Proof.
  exists (fresh (dom (store w))). unfold B.HoneycombBot. run_monad.
  split; [done|]. split.
  - apply not_elem_of_dom, is_fresh.
  - apply lookup_insert_eq.
Qed.

Lemma success_is_not_error (code : Z) : success_status code -> error_status code = false.
Proof. unfold success_status, error_status. lia. Qed.

Lemma decode_error (r : Response) :
  error_status (status_code r) = true -> decode (Reply r) = Raise (HTTPError r).
Proof. intros H. unfold decode. by rewrite H. Qed.

Lemma decode_body (r : Response) (v : PyVal) :
  error_status (status_code r) = false -> body_json r = Some v -> decode (Reply r) = Ok v.
Proof. intros H Hv. unfold decode. by rewrite H, Hv. Qed.

Lemma decode_http_error (o : NetOutcome) (r : Response) :
  decode o = Raise (HTTPError r) -> o = Reply r /\ error_status (status_code r) = true.
Proof.
  unfold decode. destruct o as [r'| |name]; [|done..].
  destruct (error_status (status_code r')) eqn:E.
  - intros [= ->]. done.
  - by destruct (body_json r').
Qed.

Lemma sent_logged_inv {S} (w : World S) (req req' : Request) :
  sent (logged w req) = sent w ++ [req'] -> req' = req.
Proof.
  cbn. intros H. apply app_inv_head in H. by injection H.
Qed.

Lemma sent_not_grown {S} (w : World S) (req : Request) : sent w <> sent w ++ [req].
Proof.
  intros H. apply (f_equal length) in H. rewrite length_app in H. cbn in H. lia.
Qed.

Lemma A_invoke_sent (c : A.Call) (w : World A.Globals) (req : Request) :
  sent (snd (A.invoke c w)) = sent w ++ [req] -> req = A_request (store w) c.
Proof. rewrite A_invoke_run. apply sent_logged_inv. Qed.

Lemma B_invoke_sent (self : nat) (c : B.Call) (w : World B.Heap) (req : Request) :
  sent (snd (B.invoke self c w)) = sent w ++ [req] ->
  exists bot, store w !! self = Some bot /\ req = B_request bot c.
Proof.
  destruct (store w !! self) as [bot|] eqn:Hself.
  - rewrite (B_invoke_run self bot c w Hself). intros H. exists bot. split; [done|].
    by apply sent_logged_inv in H.
  - rewrite (B_invoke_dangling self c w Hself). intros H. by apply sent_not_grown in H.
Qed.

(** ** Status policy (C1) *)

(** C1, as stated, fails: a reply whose status lies outside [200,299] is not
    always signalled as a failed request.  On a 300 reply with a JSON body
    [get_profile] of bot-example.py returns the decoded body. *)
Lemma get_profile_on_300_returns_body :
  exchange (world_A multiple_choices) (A_request demo_globals A.GetProfile)
  = Reply multiple_choices
  /\ ~ success_status (status_code multiple_choices)
  /\ fst (A.invoke A.GetProfile (world_A multiple_choices)) = Ok bee_profile
  /\ ~ signals_request_failed (fst (A.invoke A.GetProfile (world_A multiple_choices)))
        (status_code multiple_choices).
Proof.
  split; [reflexivity|]. split; [unfold success_status; cbn; lia|].
  split; [reflexivity|]. intros [r [H _]]. vm_compute in H. discriminate H.
Qed.

(** C1, amended: for every method of either client and every reply of the
    server, a status in [400,599] raises [HTTPError] carrying that very
    response (hence its status code); any other status, in particular every
    status in [200,299], with a body that is valid JSON makes the method return
    the decoded body, respectively [body.get("posts", [])] for [get_feed] and
    [body.get("post")] for [get_post] of bot-example.py. *)
Theorem status_policy :
  (forall (c : A.Call) (w : World A.Globals) (req : Request) (r : Response),
      sent (snd (A.invoke c w)) = sent w ++ [req] ->
      exchange w req = Reply r ->
      (error_status (status_code r) = true -> fst (A.invoke c w) = Raise (HTTPError r))
      /\ (error_status (status_code r) = false ->
          forall v, body_json r = Some v -> fst (A.invoke c w) = A_returned c v))
  /\ (forall (self : nat) (c : B.Call) (w : World B.Heap) (req : Request) (r : Response),
      sent (snd (B.invoke self c w)) = sent w ++ [req] ->
      exchange w req = Reply r ->
      (error_status (status_code r) = true -> fst (B.invoke self c w) = Raise (HTTPError r))
      /\ (error_status (status_code r) = false ->
          forall v, body_json r = Some v -> fst (B.invoke self c w) = Ok v))
  /\ (forall code : Z, success_status code -> error_status code = false).
Proof.
  split; [|split].
  - intros c w req r Hsent Hreply. apply A_invoke_sent in Hsent. subst req.
    rewrite A_invoke_run, Hreply. cbn [fst]. split.
    + intros Herr. by rewrite (decode_error r Herr).
    + intros Hok v Hv. by rewrite (decode_body r v Hok Hv).
  - intros self c w req r Hsent Hreply.
    apply B_invoke_sent in Hsent as [bot [Hself ->]].
    rewrite (B_invoke_run self bot c w Hself), Hreply. cbn [fst]. split.
    + apply decode_error.
    + intros Hok v Hv. by apply decode_body.
  - apply success_is_not_error.
Qed.

(** The policy on a 404 reply, on a 200 reply, and on status 204. *)
Lemma status_policy_witness :
  fst (A.invoke (A.GetPost "p1") (world_A not_found)) = Raise (HTTPError not_found)
  /\ fst (B.invoke 0 B.GetMe (world_B ok_profile)) = Ok bee_profile
  /\ error_status 204 = false.
Proof.
  split; [|split].
  - apply (proj1 status_policy (A.GetPost "p1") (world_A not_found)
             (A_request demo_globals (A.GetPost "p1")) not_found); reflexivity.
  - apply (proj1 (proj2 status_policy) 0%nat B.GetMe (world_B ok_profile)
             (B_request demo_bot B.GetMe) ok_profile); reflexivity.
  - apply (proj2 (proj2 status_policy) 204). unfold success_status. lia.
Defined.

(** ** The body of [create_post] (C2) *)

Lemma A_create_post_run (title body : string) (tags : option (list PyVal))
    (w : World A.Globals) :
  A.create_post title body tags w
  = (decode (exchange w (A_request (store w) (A.CreatePost title body tags))),
     logged w (A_request (store w) (A.CreatePost title body tags))).
Proof.
  rewrite <- (and_then_ok (decode _)). apply (A_invoke_run (A.CreatePost title body tags)).
Qed.

(** C2, as stated, fails for bot-example.py: with [tags] omitted the body sent
    has the fields [title] and [body] only, and no [tags] field. *)
Lemma create_post_omits_empty_tags :
  exists req,
    sent (snd (A.create_post "T" "B" None (world_A created_post))) = [req]
    /\ req_json req = Some (PyDict [("title", PyStr "T"); ("body", PyStr "B")])
    /\ json_fields req <> Some ["title"; "body"; "tags"].
Proof.
  eexists. split; [reflexivity|]. split; [reflexivity|]. discriminate.
Qed.

(** C2, amended: [create_post] of honeycomb_bot.py sends a body with exactly
    the fields [title], [body] and [tags], where [tags] is the empty sequence
    when the caller omits it or passes an empty one; [create_post] of
    bot-example.py sends exactly [title] and [body], followed by [tags] only
    when a non-empty sequence is given.  In both, a reply with a status in
    [200,299] and a JSON body makes the call return the decoded body
    unchanged. *)
Theorem create_post_body :
  (forall (title body : string) (tags : option (list PyVal)) (w : World A.Globals),
      exists req,
        sent (snd (A.create_post title body tags w)) = sent w ++ [req]
        /\ req_verb req = POST
        /\ req_json req
           = Some (PyDict ([("title", PyStr title); ("body", PyStr body)]
                           ++ if truthy_list tags
                              then [("tags", PyList (default [] tags))] else []))
        /\ json_fields req
           = Some (if truthy_list tags then ["title"; "body"; "tags"] else ["title"; "body"])
        /\ (forall r v, exchange w req = Reply r -> success_status (status_code r) ->
                        body_json r = Some v ->
                        fst (A.create_post title body tags w) = Ok v))
  /\ (forall (self : nat) (bot : B.Bot) (title body : string) (tags : option (list PyVal))
             (w : World B.Heap),
      store w !! self = Some bot ->
      exists req,
        sent (snd (B.create_post self title body tags w)) = sent w ++ [req]
        /\ req_verb req = POST
        /\ req_json req
           = Some (PyDict [("title", PyStr title); ("body", PyStr body);
                           ("tags", PyList (if truthy_list tags then default [] tags else []))])
        /\ json_fields req = Some ["title"; "body"; "tags"]
        /\ (forall r v, exchange w req = Reply r -> success_status (status_code r) ->
                        body_json r = Some v ->
                        fst (B.create_post self title body tags w) = Ok v)).
Proof.
  split.
  - intros title body tags w.
    exists (A_request (store w) (A.CreatePost title body tags)).
    rewrite A_create_post_run. cbn [fst snd].
    split; [reflexivity|]. split; [reflexivity|].
    split; [by destruct tags as [[|x xs]|]|].
    split; [by destruct tags as [[|x xs]|]|].
    intros r v -> Hok Hv. apply decode_body; [by apply success_is_not_error|done].
  - intros self bot title body tags w Hself.
    exists (B_request bot (B.CreatePost title body tags)).
    change (B.create_post self title body tags) with (B.invoke self (B.CreatePost title body tags)).
    rewrite (B_invoke_run self bot _ w Hself). cbn [fst snd].
    split; [reflexivity|]. split; [reflexivity|].
    split; [by destruct tags as [[|x xs]|]|].
    split; [reflexivity|].
    intros r v -> Hok Hv. apply decode_body; [by apply success_is_not_error|done].
Qed.

(** A post created without tags through honeycomb_bot.py. *)
Lemma create_post_body_witness :
  exists req,
    sent (snd (B.create_post 0 "T" "B" None (world_B created_post))) = [req]
    /\ req_json req
       = Some (PyDict [("title", PyStr "T"); ("body", PyStr "B"); ("tags", PyList [])])
    /\ fst (B.create_post 0 "T" "B" None (world_B created_post)) = Ok post_p1.
Proof.
  destruct (proj2 create_post_body 0%nat demo_bot "T" "B" None (world_B created_post) eq_refl)
    as [req [Hsent [_ [Hjson [_ Hret]]]]].
  exists req. split; [exact Hsent|]. split; [exact Hjson|].
  apply (Hret created_post post_p1).
  - cbn in Hsent. injection Hsent as <-. reflexivity.
  - unfold success_status. cbn. lia.
  - reflexivity.
Defined.

(** ** A missing API key (C3) *)

(** C3, as stated, fails for honeycomb_bot.py: constructing the client with
    the API key absent raises nothing and yields an instance whose key is
    [None]. *)
Lemma constructor_accepts_missing_key :
  fst (B.HoneycombBot (B.module_top ∅) None None fresh_world_B) = Ok 0%nat
  /\ B.api_key <$> store (snd (B.HoneycombBot (B.module_top ∅) None None fresh_world_B)) !! 0%nat
     = Some None.
Proof. split; reflexivity. Qed.

(** C3, amended: when the API key is absent from the environment (unset or
    empty) neither script sends a request.  bot-example.py prints an error and
    exits with status 1 while its module is loaded, before any client exists;
    [main] of honeycomb_bot.py prints an error and returns without constructing
    the client.  The constructor of honeycomb_bot.py makes no check of the key:
    it always succeeds, and it sends no request either. *)
Theorem missing_key_sends_nothing :
  (forall (environ : gmap string string) (w : World unit),
      truthy_str (environ !! "HONEYCOMB_API_KEY") = false ->
      A.module_top environ w
      = (Raise (SystemExit 1),
         printed w "Error: HONEYCOMB_API_KEY environment variable is required")
      /\ sent (snd (A.module_top environ w)) = sent w)
  /\ (forall (py_str : PyVal -> string) (environ : gmap string string) (w : World B.Heap),
      truthy_str (environ !! "HONEYCOMB_API_KEY") = false ->
      B.main py_str (B.module_top environ) w
      = (Ok tt, printed w "Error: HONEYCOMB_API_KEY environment variable not set")
      /\ sent (snd (B.main py_str (B.module_top environ) w)) = sent w
      /\ store (snd (B.main py_str (B.module_top environ) w)) = store w)
  /\ (forall (g : B.Globals) (api_key base_url : option string) (w : World B.Heap),
      (exists self, fst (B.HoneycombBot g api_key base_url w) = Ok self)
      /\ sent (snd (B.HoneycombBot g api_key base_url w)) = sent w).
Proof.
  split; [|split].
  - intros environ w Hkey. unfold A.module_top. rewrite Hkey. done.
  - intros py_str environ w Hkey. unfold B.main. cbn [B.module_top B.API_KEY].
    rewrite Hkey. done.
  - intros g api_key base_url w. split; [by eexists|done].
Qed.

(** Both scripts started in an environment without the key. *)
Lemma missing_key_sends_nothing_witness :
  fst (A.module_top no_key_environ blank_world) = Raise (SystemExit 1)
  /\ sent (snd (A.module_top no_key_environ blank_world)) = []
  /\ sent (snd (B.main (fun _ => "") (B.module_top no_key_environ) fresh_world_B)) = [].
Proof.
  split; [|split].
  - rewrite (proj1 (proj1 missing_key_sends_nothing no_key_environ blank_world eq_refl)).
    reflexivity.
  - apply (proj2 (proj1 missing_key_sends_nothing no_key_environ blank_world eq_refl)).
  - apply (proj1 (proj2 (proj1 (proj2 missing_key_sends_nothing) (fun _ => "")
             no_key_environ fresh_world_B eq_refl))).
Defined.

(** ** What [get_feed] returns (C4) *)

(** C4, as stated, fails for the limit/offset variant: [get_feed] of
    honeycomb_bot.py returns the envelope itself, not the sequence under its
    [posts] field. *)
Lemma get_feed_returns_envelope :
  body_json ok_feed = Some feed_envelope
  /\ fst (B.get_feed 0 None None (world_B ok_feed)) = Ok feed_envelope
  /\ fst (B.get_feed 0 None None (world_B ok_feed)) <> Ok (PyList [post_p1]).
Proof. split; [reflexivity|]. split; [reflexivity|]. discriminate. Qed.

(** C4, amended: on a reply with a status in [200,299] whose body is a JSON
    object, the sort-based [get_feed] of bot-example.py returns the value of
    the [posts] field of that object (the empty list when the field is
    missing), while the limit/offset-based [get_feed] of honeycomb_bot.py
    returns the decoded envelope itself and leaves the extraction of [posts]
    to its caller. *)
Theorem get_feed_result :
  (forall (sort : option string) (w : World A.Globals) (req : Request) (r : Response)
          (d : list (string * PyVal)),
      sent (snd (A.get_feed sort w)) = sent w ++ [req] ->
      exchange w req = Reply r ->
      success_status (status_code r) ->
      body_json r = Some (PyDict d) ->
      fst (A.get_feed sort w) = Ok (default (PyList []) (dict_lookup "posts" d)))
  /\ (forall (self : nat) (limit offset : option Z) (w : World B.Heap) (req : Request)
             (r : Response) (d : list (string * PyVal)),
      sent (snd (B.get_feed self limit offset w)) = sent w ++ [req] ->
      exchange w req = Reply r ->
      success_status (status_code r) ->
      body_json r = Some (PyDict d) ->
      fst (B.get_feed self limit offset w) = Ok (PyDict d)).
Proof.
  split.
  - intros sort w req r d Hsent Hreply Hok Hbody.
    change (A.get_feed sort) with (A.invoke (A.GetFeed sort)) in *.
    apply A_invoke_sent in Hsent. subst req.
    rewrite A_invoke_run, Hreply. cbn [fst].
    by rewrite (decode_body r _ (success_is_not_error _ Hok) Hbody).
  - intros self limit offset w req r d Hsent Hreply Hok Hbody.
    change (B.get_feed self limit offset) with (B.invoke self (B.GetFeed limit offset)) in *.
    apply B_invoke_sent in Hsent as [bot [Hself ->]].
    rewrite (B_invoke_run self bot _ w Hself), Hreply. cbn [fst].
    by apply decode_body; [apply success_is_not_error|].
Qed.

(** Both feeds read from a server that answers with one post. *)
Lemma get_feed_result_witness :
  fst (A.get_feed (Some "new") (mkWorld demo_globals [] [] feed_server)) = Ok (PyList [post_p1])
  /\ fst (B.get_feed 0 (Some 5) None (world_B ok_feed)) = Ok feed_envelope.
Proof.
  split.
  - apply (proj1 get_feed_result (Some "new") (mkWorld demo_globals [] [] feed_server)
             (A_request demo_globals (A.GetFeed (Some "new"))) ok_feed
             [("posts", PyList [post_p1])]);
      [reflexivity | reflexivity | unfold success_status; cbn; lia | reflexivity].
  - apply (proj2 get_feed_result 0%nat (Some 5) None (world_B ok_feed)
             (B_request demo_bot (B.GetFeed (Some 5) None)) ok_feed
             [("posts", PyList [post_p1])]);
      [reflexivity | reflexivity | unfold success_status; cbn; lia | reflexivity].
Defined.

(** ** No client-side state (C5) *)

(** C5: no method of either client changes the store (the module globals of
    bot-example.py, the instance attributes of honeycomb_bot.py) or prints.
    The request a call sends is fixed by the store and the arguments alone,
    whatever was sent before, and its result is a function of the server's
    answer to that request; so two calls made in either order send the same
    two requests. *)
Theorem client_is_stateless :
  (forall (c : A.Call) (g : A.Globals),
      exists (req : Request) (k : NetOutcome -> Result PyVal),
        forall (past : list Request) (out : list string)
               (srv : list Request -> Request -> NetOutcome),
          let w := mkWorld g past out srv in
          fst (A.invoke c w) = k (srv past req)
          /\ store (snd (A.invoke c w)) = g
          /\ sent (snd (A.invoke c w)) = past ++ [req]
          /\ stdout (snd (A.invoke c w)) = out)
  /\ (forall (self : nat) (c : B.Call) (h : gmap nat B.Bot),
      exists (reqs : list Request) (k : list NetOutcome -> Result PyVal),
        forall (past : list Request) (out : list string)
               (srv : list Request -> Request -> NetOutcome),
          let w := mkWorld h past out srv in
          fst (B.invoke self c w) = k (map (srv past) reqs)
          /\ store (snd (B.invoke self c w)) = h
          /\ sent (snd (B.invoke self c w)) = past ++ reqs
          /\ stdout (snd (B.invoke self c w)) = out)
  /\ (forall (c1 c2 : A.Call) (w : World A.Globals),
      exists req1 req2 : Request,
        sent (snd (A.invoke c2 (snd (A.invoke c1 w)))) = sent w ++ [req1; req2]
        /\ sent (snd (A.invoke c1 (snd (A.invoke c2 w)))) = sent w ++ [req2; req1])
  /\ (forall (self : nat) (c1 c2 : B.Call) (w : World B.Heap),
      exists reqs1 reqs2 : list Request,
        sent (snd (B.invoke self c2 (snd (B.invoke self c1 w)))) = sent w ++ reqs1 ++ reqs2
        /\ sent (snd (B.invoke self c1 (snd (B.invoke self c2 w)))) = sent w ++ reqs2 ++ reqs1).
Proof.
  split; [|split; [|split]].
  - intros c g. exists (A_request g c), (fun o => and_then (decode o) (A_returned c)).
    intros past out srv w. by rewrite A_invoke_run.
  - intros self c h. destruct (h !! self) as [bot|] eqn:Hself.
    + exists [B_request bot c],
        (fun os => match os with [o] => decode o | _ => Raise TypeError end).
      intros past out srv w. by rewrite (B_invoke_run self bot c w Hself).
    + exists [], (fun _ => Raise (AttributeError "self")).
      intros past out srv w. rewrite (B_invoke_dangling self c w Hself). cbn.
      by rewrite app_nil_r.
  - intros c1 c2 w. exists (A_request (store w) c1), (A_request (store w) c2).
    rewrite !A_invoke_run. cbn. by rewrite <- !app_assoc.
  - intros self c1 c2 w. destruct (store w !! self) as [bot|] eqn:Hself.
    + exists [B_request bot c1], [B_request bot c2].
      rewrite (B_invoke_run self bot c1 w Hself), (B_invoke_run self bot c2 w Hself).
      cbn [snd]. rewrite !(B_invoke_run self bot); [|done..].
      cbn. by rewrite <- !app_assoc.
    + exists [], [].
      rewrite (B_invoke_dangling self c1 w Hself), (B_invoke_dangling self c2 w Hself).
      cbn [snd]. rewrite !(B_invoke_dangling self); [|done..].
      cbn. by rewrite app_nil_r.
Qed.

(** ** A missing field (C6) *)

(** C6, as stated, fails: on a 200 reply whose JSON object has neither a
    [posts] nor a [post] field, [get_feed] returns the empty list and
    [get_post] returns [None]; no error is signalled. *)
Lemma missing_field_yields_default :
  success_status (status_code ok_empty_object)
  /\ body_json ok_empty_object = Some (PyDict [])
  /\ fst (A.get_feed None (world_A ok_empty_object)) = Ok (PyList [])
  /\ fst (A.get_post "p1" (world_A ok_empty_object)) = Ok PyNone.
Proof.
  split; [unfold success_status; cbn; lia|]. repeat split; reflexivity.
Qed.

(** C6, amended: on a reply with a status in [200,299] whose body is a JSON
    object without the expected field, [get_feed] of bot-example.py returns
    the empty list and [get_post] returns [None]: the default value is
    returned and no error is signalled. *)
Theorem missing_field_defaults :
  (forall (sort : option string) (w : World A.Globals) (req : Request) (r : Response)
          (d : list (string * PyVal)),
      sent (snd (A.get_feed sort w)) = sent w ++ [req] ->
      exchange w req = Reply r ->
      success_status (status_code r) ->
      body_json r = Some (PyDict d) ->
      dict_lookup "posts" d = None ->
      fst (A.get_feed sort w) = Ok (PyList []))
  /\ (forall (post_id : string) (w : World A.Globals) (req : Request) (r : Response)
             (d : list (string * PyVal)),
      sent (snd (A.get_post post_id w)) = sent w ++ [req] ->
      exchange w req = Reply r ->
      success_status (status_code r) ->
      body_json r = Some (PyDict d) ->
      dict_lookup "post" d = None ->
      fst (A.get_post post_id w) = Ok PyNone).
Proof.
  split.
  - intros sort w req r d Hsent Hreply Hok Hbody Hmiss.
    change (A.get_feed sort) with (A.invoke (A.GetFeed sort)) in *.
    apply A_invoke_sent in Hsent. subst req.
    rewrite A_invoke_run, Hreply. cbn [fst].
    rewrite (decode_body r _ (success_is_not_error _ Hok) Hbody). cbn.
    by rewrite Hmiss.
  - intros post_id w req r d Hsent Hreply Hok Hbody Hmiss.
    change (A.get_post post_id) with (A.invoke (A.GetPost post_id)) in *.
    apply A_invoke_sent in Hsent. subst req.
    rewrite A_invoke_run, Hreply. cbn [fst].
    rewrite (decode_body r _ (success_is_not_error _ Hok) Hbody). cbn.
    by rewrite Hmiss.
Qed.

(** An envelope without [posts], and one without [post]. *)
Lemma missing_field_defaults_witness :
  fst (A.get_feed (Some "top") (world_A created_post)) = Ok (PyList [])
  /\ fst (A.get_post "p9" (world_A ok_feed)) = Ok PyNone.
Proof.
  split.
  - apply (proj1 missing_field_defaults (Some "top") (world_A created_post)
             (A_request demo_globals (A.GetFeed (Some "top"))) created_post
             [("id", PyStr "p1"); ("title", PyStr "T"); ("upvotes", PyInt 3)]);
      [reflexivity | reflexivity | unfold success_status; cbn; lia | reflexivity | reflexivity].
  - apply (proj2 missing_field_defaults "p9" (world_A ok_feed)
             (A_request demo_globals (A.GetPost "p9")) ok_feed
             [("posts", PyList [post_p1])]);
      [reflexivity | reflexivity | unfold success_status; cbn; lia | reflexivity | reflexivity].
Defined.

(** ** The direction of a vote (C7) *)

(** C7: for every string [direction], "up" and "down" or not, [vote] of
    bot-example.py and [vote_on_post] of honeycomb_bot.py send a body whose
    only field is [direction], holding that very string.  Nothing is rejected
    locally: the result of the call is what the three library steps make of the
    server's answer, and an [HTTPError] out of the call carries a reply of the
    server whose status is outside [200,299]. *)
Theorem vote_forwards_direction :
  (forall (post_id direction : string) (w : World A.Globals),
      exists req,
        sent (snd (A.vote post_id direction w)) = sent w ++ [req]
        /\ req_verb req = POST
        /\ req_json req = Some (PyDict [("direction", PyStr direction)])
        /\ fst (A.vote post_id direction w) = decode (exchange w req)
        /\ (forall r, fst (A.vote post_id direction w) = Raise (HTTPError r) ->
                      exchange w req = Reply r /\ ~ success_status (status_code r)))
  /\ (forall (self : nat) (bot : B.Bot) (post_id direction : string) (w : World B.Heap),
      store w !! self = Some bot ->
      exists req,
        sent (snd (B.vote_on_post self post_id (Some direction) w)) = sent w ++ [req]
        /\ req_verb req = POST
        /\ req_json req = Some (PyDict [("direction", PyStr direction)])
        /\ fst (B.vote_on_post self post_id (Some direction) w) = decode (exchange w req)
        /\ (forall r, fst (B.vote_on_post self post_id (Some direction) w)
                        = Raise (HTTPError r) ->
                      exchange w req = Reply r /\ ~ success_status (status_code r))).
Proof.
  assert (Hrej : forall o r, decode o = Raise (HTTPError r) ->
                   o = Reply r /\ ~ success_status (status_code r)).
  { intros o r H. apply decode_http_error in H as [-> Herr]. split; [done|].
    intros Hok. apply success_is_not_error in Hok. congruence. }
  split.
  - intros post_id direction w.
    exists (A_request (store w) (A.Vote post_id direction)).
    change (A.vote post_id direction) with (A.invoke (A.Vote post_id direction)).
    rewrite A_invoke_run. cbn [fst snd A_returned]. rewrite and_then_ok.
    do 4 (split; [reflexivity|]). apply Hrej.
  - intros self bot post_id direction w Hself.
    exists (B_request bot (B.VoteOnPost post_id (Some direction))).
    change (B.vote_on_post self post_id (Some direction))
      with (B.invoke self (B.VoteOnPost post_id (Some direction))).
    rewrite (B_invoke_run self bot _ w Hself). cbn [fst snd].
    do 4 (split; [reflexivity|]). apply Hrej.
Qed.

(** A direction that is neither "up" nor "down" goes out as it is. *)
Lemma vote_forwards_direction_witness :
  exists req,
    sent (snd (B.vote_on_post 0 "p1" (Some "sideways") (world_B not_found))) = [req]
    /\ req_json req = Some (PyDict [("direction", PyStr "sideways")]).
Proof.
  destruct (proj2 vote_forwards_direction 0%nat demo_bot "p1" "sideways" (world_B not_found)
              eq_refl) as [req [Hsent [_ [Hjson _]]]].
  exists req. split; [exact Hsent | exact Hjson].
Defined.

(** ** The requests of [get_feed] (C8) *)






(** ** What [get_post] returns (C9) *)

(** C9, as stated, fails: a 2xx reply need not hold a JSON object.  When the
    server answers 200 with the body [null] for a post that does not exist,
    [get_post] raises [AttributeError] and returns nothing. *)
Lemma get_post_on_null_body_raises :
  success_status (status_code (mkResponse 200 (Some PyNone)))
  /\ body_json (mkResponse 200 (Some PyNone)) = Some PyNone
  /\ fst (A.get_post "p1" (world_A (mkResponse 200 (Some PyNone))))
     = Raise (AttributeError "get").
Proof.
  split; [unfold success_status; cbn; lia|]. split; reflexivity.
Qed.

(** C9, amended: on a reply with a status in [200,299] whose body is a JSON
    object, [get_post] returns the value of the [post] field of that object,
    and [None], not an error, when the object has no such field. *)
Theorem get_post_result (post_id : string) (w : World A.Globals) (req : Request)
    (r : Response) (d : list (string * PyVal)) :
  sent (snd (A.get_post post_id w)) = sent w ++ [req] ->
  exchange w req = Reply r ->
  success_status (status_code r) ->
  body_json r = Some (PyDict d) ->
  req_verb req = GET
  /\ req_url req = A.API_BASE (store w) +:+ "/api/bot/posts/" +:+ post_id
  /\ fst (A.get_post post_id w)
     = Ok (match dict_lookup "post" d with
           | Some post => post
           | None => PyNone
           end).
Proof.
  intros Hsent Hreply Hok Hbody.
  change (A.get_post post_id) with (A.invoke (A.GetPost post_id)) in *.
  apply A_invoke_sent in Hsent. subst req.
  rewrite A_invoke_run, Hreply. cbn [fst].
  rewrite (decode_body r _ (success_is_not_error _ Hok) Hbody). by repeat split.
Qed.

(** A post that exists, and one that does not. *)
Lemma get_post_result_witness :
  fst (A.get_post "p1" (world_A (mkResponse 200 (Some (PyDict [("post", post_p1)])))))
  = Ok post_p1
  /\ fst (A.get_post "p2" (world_A ok_empty_object)) = Ok PyNone.
Proof.
  split.
  - apply (get_post_result "p1" (world_A (mkResponse 200 (Some (PyDict [("post", post_p1)]))))
             (A_request demo_globals (A.GetPost "p1"))
             (mkResponse 200 (Some (PyDict [("post", post_p1)]))) [("post", post_p1)]);
      [reflexivity | reflexivity | unfold success_status; cbn; lia | reflexivity].
  - apply (get_post_result "p2" (world_A ok_empty_object)
             (A_request demo_globals (A.GetPost "p2")) ok_empty_object []);
      [reflexivity | reflexivity | unfold success_status; cbn; lia | reflexivity].
Defined.

(** ** The defaults of [enable_heartbeat] (C10) *)

(** C10: whenever [topics] is omitted, [None] or empty, [enable_heartbeat]
    sends [topics = ["AI", "blockchain", "DeFi"]]; hence the [topics] field of
    the body is never the empty list, whatever the caller passes; and an
    omitted [personality] is sent as "autonomous". *)
Theorem enable_heartbeat_defaults (self : nat) (bot : B.Bot)
    (interval_minutes max_daily_posts : option Z) (topics : option (list PyVal))
    (personality : option string) (w : World B.Heap) :
  store w !! self = Some bot ->
  exists req body,
    sent (snd (B.enable_heartbeat self interval_minutes max_daily_posts topics personality w))
    = sent w ++ [req]
    /\ req_json req = Some (PyDict body)
    /\ dict_keys body = ["intervalMinutes"; "maxDailyPosts"; "topics"; "personality"]
    /\ (topics = None \/ topics = Some [] ->
        dict_lookup "topics" body
        = Some (PyList [PyStr "AI"; PyStr "blockchain"; PyStr "DeFi"]))
    /\ dict_lookup "topics" body <> Some (PyList [])
    /\ (personality = None -> dict_lookup "personality" body = Some (PyStr "autonomous")).
Proof.
  intros Hself.
  change (B.enable_heartbeat self interval_minutes max_daily_posts topics personality)
    with (B.invoke self (B.EnableHeartbeat interval_minutes max_daily_posts topics personality)).
  rewrite (B_invoke_run self bot _ w Hself). cbn [snd sent logged B_request].
  eexists. eexists. split; [reflexivity|]. split; [reflexivity|]. split; [reflexivity|].
  split; [|split].
  - by intros [-> | ->].
  - by destruct topics as [[|x xs]|].
  - by intros ->.
Qed.

(** An empty list of topics and no personality. *)
Lemma enable_heartbeat_defaults_witness :
  exists req body,
    sent (snd (B.enable_heartbeat 0 None None (Some []) None (world_B ok_profile))) = [req]
    /\ req_json req = Some (PyDict body)
    /\ dict_lookup "topics" body = Some (PyList [PyStr "AI"; PyStr "blockchain"; PyStr "DeFi"])
    /\ dict_lookup "personality" body = Some (PyStr "autonomous").
Proof.
  destruct (enable_heartbeat_defaults 0%nat demo_bot None None (Some []) None
              (world_B ok_profile) eq_refl)
    as [req [body [Hsent [Hjson [_ [Htopics [_ Hpers]]]]]]].
  exists req, body. split; [exact Hsent|]. split; [exact Hjson|].
  split; [apply Htopics; by right | by apply Hpers].
Defined.

(** ** The end-to-end scenario of the specification *)

Example feed_scenario :
  exists first,
    fst (A.get_feed (Some "new") (mkWorld demo_globals [] [] feed_server)) = Ok (PyList [first])
    /\ py_item first "id" = Ok (PyStr "p1").
Proof. exists post_p1. split; reflexivity. Qed.

(** ** More on single calls *)

(** Every request of either client carries the headers held by the client,
    goes to a URL under the base URL of the client, and keeps to one way of
    passing arguments: a GET has no JSON body, a POST has no [params], and
    bot-example.py never uses [params] at all. *)
Theorem requests_carry_credentials :
  (forall (c : A.Call) (w : World A.Globals) (req : Request),
      sent (snd (A.invoke c w)) = sent w ++ [req] ->
      req_headers req = A.HEADERS (store w)
      /\ (exists path, req_url req = A.API_BASE (store w) +:+ "/api/bot/" +:+ path)
      /\ req_params req = None
      /\ (req_verb req = GET -> req_json req = None))
  /\ (forall (self : nat) (c : B.Call) (w : World B.Heap) (req : Request),
      sent (snd (B.invoke self c w)) = sent w ++ [req] ->
      exists bot,
        store w !! self = Some bot
        /\ req_headers req = B.headers bot
        /\ (exists path, req_url req = B.base_url bot +:+ "/bot/" +:+ path)
        /\ (req_verb req = GET -> req_json req = None)
        /\ (req_verb req = POST -> req_params req = None)).
Proof.
  split.
  - intros c w req Hsent. apply A_invoke_sent in Hsent. subst req.
    destruct c; cbn; (split; [done|]); (split; [by eexists|]); done.
  - intros self c w req Hsent. apply B_invoke_sent in Hsent as [bot [Hself ->]].
    exists bot. split; [done|].
    destruct c; cbn; (split; [done|]); (split; [by eexists|]); done.
Qed.

(** [requests_carry_credentials] on a comment and on a page of the feed. *)
Lemma requests_carry_credentials_witness :
  (exists path,
      req_url (A_request demo_globals (A.Comment "p1" "hi"))
      = "https://hive.example" +:+ "/api/bot/" +:+ path)
  /\ (exists bot, ({[ 0%nat := demo_bot ]} : gmap nat B.Bot) !! 0%nat = Some bot
                  /\ req_headers (B_request demo_bot (B.GetFeed None None)) = B.headers bot).
Proof.
  split.
  - apply (proj1 requests_carry_credentials (A.Comment "p1" "hi") (world_A ok_profile)
             (A_request demo_globals (A.Comment "p1" "hi")) eq_refl).
  - destruct (proj2 requests_carry_credentials 0%nat (B.GetFeed None None) (world_B ok_feed)
                (B_request demo_bot (B.GetFeed None None)) eq_refl)
      as [bot [Hself [Hh _]]].
    exists bot. split; [exact Hself | exact Hh].
Defined.

(** When the transport gives no reply to the request of a call, the call
    raises [ConnectionError]; the request has been handed over once and is not
    repeated. *)
Theorem no_reply_raises_connection_error :
  (forall (c : A.Call) (w : World A.Globals) (req : Request),
      sent (snd (A.invoke c w)) = sent w ++ [req] ->
      exchange w req = NoReply ->
      fst (A.invoke c w) = Raise ConnectionError)
  /\ (forall (self : nat) (c : B.Call) (w : World B.Heap) (req : Request),
      sent (snd (B.invoke self c w)) = sent w ++ [req] ->
      exchange w req = NoReply ->
      fst (B.invoke self c w) = Raise ConnectionError).
Proof.
  split.
  - intros c w req Hsent Hno. apply A_invoke_sent in Hsent. subst req.
    by rewrite A_invoke_run, Hno.
  - intros self c w req Hsent Hno. apply B_invoke_sent in Hsent as [bot [Hself ->]].
    by rewrite (B_invoke_run self bot c w Hself), Hno.
Qed.

(** A vote and a heartbeat switch-off against a network that is down. *)
Lemma no_reply_raises_connection_error_witness :
  fst (A.invoke (A.Vote "p1" "up") offline_A) = Raise ConnectionError
  /\ fst (B.invoke 0 B.DisableHeartbeat offline_B) = Raise ConnectionError.
Proof.
  split.
  - apply (proj1 no_reply_raises_connection_error (A.Vote "p1" "up") offline_A
             (A_request demo_globals (A.Vote "p1" "up"))); reflexivity.
  - apply (proj2 no_reply_raises_connection_error 0%nat B.DisableHeartbeat offline_B
             (B_request demo_bot B.DisableHeartbeat)); reflexivity.
Defined.



(** [get_feed] and [get_post] of bot-example.py need the decoded body to be a
    JSON object: on any other JSON value (an array of posts, [null], a number)
    they raise [AttributeError], since only a dict has [get]. *)
Theorem body_must_be_an_object :
  (forall (sort : option string) (w : World A.Globals) (req : Request) (r : Response)
          (v : PyVal),
      sent (snd (A.get_feed sort w)) = sent w ++ [req] ->
      exchange w req = Reply r ->
      error_status (status_code r) = false ->
      body_json r = Some v ->
      (forall d, v <> PyDict d) ->
      fst (A.get_feed sort w) = Raise (AttributeError "get"))
  /\ (forall (post_id : string) (w : World A.Globals) (req : Request) (r : Response)
             (v : PyVal),
      sent (snd (A.get_post post_id w)) = sent w ++ [req] ->
      exchange w req = Reply r ->
      error_status (status_code r) = false ->
      body_json r = Some v ->
      (forall d, v <> PyDict d) ->
      fst (A.get_post post_id w) = Raise (AttributeError "get")).
Proof.
  split.
  - intros sort w req r v Hsent Hreply Hok Hbody Hv.
    change (A.get_feed sort) with (A.invoke (A.GetFeed sort)) in *.
    apply A_invoke_sent in Hsent. subst req.
    rewrite A_invoke_run, Hreply. cbn [fst].
    rewrite (decode_body r v Hok Hbody). cbn.
    destruct v; try done. by destruct (Hv d).
  - intros post_id w req r v Hsent Hreply Hok Hbody Hv.
    change (A.get_post post_id) with (A.invoke (A.GetPost post_id)) in *.
    apply A_invoke_sent in Hsent. subst req.
    rewrite A_invoke_run, Hreply. cbn [fst].
    rewrite (decode_body r v Hok Hbody). cbn.
    destruct v; try done. by destruct (Hv d).
Qed.

(** A feed sent as a bare array, and a post sent as [null]. *)
Lemma body_must_be_an_object_witness :
  fst (A.get_feed None (world_A (mkResponse 200 (Some (PyList [post_p1])))))
  = Raise (AttributeError "get")
  /\ fst (A.get_post "p1" (world_A (mkResponse 200 (Some PyNone))))
     = Raise (AttributeError "get").
Proof.
  split.
  - apply (proj1 body_must_be_an_object None
             (world_A (mkResponse 200 (Some (PyList [post_p1]))))
             (A_request demo_globals (A.GetFeed None))
             (mkResponse 200 (Some (PyList [post_p1]))) (PyList [post_p1]));
      [reflexivity | reflexivity | reflexivity | reflexivity | discriminate].
  - apply (proj2 body_must_be_an_object "p1" (world_A (mkResponse 200 (Some PyNone)))
             (A_request demo_globals (A.GetPost "p1"))
             (mkResponse 200 (Some PyNone)) PyNone);
      [reflexivity | reflexivity | reflexivity | reflexivity | discriminate].
Defined.

(** ** A client and its maker *)

(** Constructing a client of honeycomb_bot.py never touches the clients that
    exist: the new reference differs from every live one, whose attributes
    stay as they were; nothing is sent or printed. *)
Theorem constructor_keeps_instances (g : B.Globals) (key base : option string)
    (w : World B.Heap) (other : nat) (bot : B.Bot) :
  store w !! other = Some bot ->
  exists self,
    fst (B.HoneycombBot g key base w) = Ok self
    /\ self <> other
    /\ store (snd (B.HoneycombBot g key base w)) !! other = Some bot
    /\ dom (store (snd (B.HoneycombBot g key base w))) = {[ self ]} ∪ dom (store w)
    /\ sent (snd (B.HoneycombBot g key base w)) = sent w
    /\ stdout (snd (B.HoneycombBot g key base w)) = stdout w.
Proof.
  intros Hother. exists (fresh (dom (store w))).
  assert (Hne : fresh (dom (store w)) <> other).
  { intros Heq. apply (is_fresh (dom (store w))). rewrite Heq.
    apply elem_of_dom. by exists bot. }
  unfold B.HoneycombBot. run_monad.
  split; [done|]. split; [done|]. split; [by rewrite lookup_insert_ne|].
  split; [by rewrite dom_insert_L|]. done.
Qed.

(** A second client built next to the demo client. *)
Lemma constructor_keeps_instances_witness :
  exists self,
    fst (B.HoneycombBot (B.module_top ∅) None None (world_B ok_profile)) = Ok self
    /\ self <> 0%nat.
Proof.
  destruct (constructor_keeps_instances (B.module_top ∅) None None (world_B ok_profile)
              0%nat demo_bot eq_refl) as [self [Hself [Hne _]]].
  exists self. split; [exact Hself | exact Hne].
Defined.

(** Any call on a client just built goes out: one request, under the base
    URL given to the constructor or else the [BASE_URL] of the module, carrying
    the key given to the constructor and the JSON content type.  This holds for
    a key that is [None] as well: the call is not refused locally. *)
Theorem constructed_client_requests (g : B.Globals) (key base : option string)
    (c : B.Call) (w : World B.Heap) :
  exists self req path,
    fst (B.HoneycombBot g key base w) = Ok self
    /\ sent (snd (B.invoke self c (snd (B.HoneycombBot g key base w)))) = sent w ++ [req]
    /\ req_headers req = B_headers key
    /\ req_url req = arg base (B.BASE_URL g) +:+ "/bot/" +:+ path
    /\ fst (B.invoke self c (snd (B.HoneycombBot g key base w)))
       = decode (server w (sent w) req).
Proof.
  destruct (HoneycombBot_allocates g key base w) as [self [Hself [_ Hlive]]].
  exists self,
    (B_request (B.mkBot key (arg base (B.BASE_URL g)) (B_headers key)) c).
  rewrite (B_invoke_run self _ c _ Hlive).
  destruct c; cbn; eexists; (split; [done|]); repeat split; reflexivity.
Qed.

(** After bot-example.py has loaded, every call sends the key of the
    environment, which is then set and not empty, as [X-API-Key], to a URL
    under [HONEYCOMB_API_URL] or, when that is unset, under the placeholder
    URL of the script. *)
Theorem loaded_client_requests (environ : gmap string string) (w0 : World unit)
    (g : A.Globals) (c : A.Call) (w : World A.Globals) (req : Request) :
  fst (A.module_top environ w0) = Ok g ->
  store w = g ->
  sent (snd (A.invoke c w)) = sent w ++ [req] ->
  exists key path,
    environ !! "HONEYCOMB_API_KEY" = Some key
    /\ key <> ""
    /\ req_headers req = A_headers (Some key)
    /\ req_url req
       = default "https://your-honeycomb-url.replit.app" (environ !! "HONEYCOMB_API_URL")
         +:+ "/api/bot/" +:+ path.
Proof.
  intros Hload Hg Hsent. apply A_invoke_sent in Hsent. subst req. rewrite Hg. clear Hg w.
  unfold A.module_top in Hload.
  destruct (environ !! "HONEYCOMB_API_KEY") as [key|] eqn:Hkey; [|discriminate Hload].
  cbn [truthy_str] in Hload.
  destruct (String.eqb_spec key "") as [->|Hne]; [discriminate Hload|].
  cbn in Hload. injection Hload as <-.
  exists key. destruct c; cbn; eexists; (split; [done|]); repeat split; done.
Qed.

(** A profile request after loading with a key and no URL in the environment. *)
Lemma loaded_client_requests_witness :
  exists key path,
    keyed_environ !! "HONEYCOMB_API_KEY" = Some key
    /\ key <> ""
    /\ req_headers (A_request keyed_globals A.GetProfile) = A_headers (Some key)
    /\ req_url (A_request keyed_globals A.GetProfile)
       = default "https://your-honeycomb-url.replit.app" (keyed_environ !! "HONEYCOMB_API_URL")
         +:+ "/api/bot/" +:+ path.
Proof.
  apply (loaded_client_requests keyed_environ blank_world keyed_globals A.GetProfile
           (mkWorld keyed_globals [] [] (always ok_profile))
           (A_request keyed_globals A.GetProfile));
    reflexivity.
Defined.

(** ** Running the scripts *)

Lemma bind_print {S T} (line : string) (k : unit -> M S T) (w : World S) :
  (print line ≫= k) w = k tt (printed w line).
Proof. reflexivity. Qed.

Lemma bind_lift {S T U} (r : Result T) (k : T -> M S U) (w : World S) :
  (lift r ≫= k) w = match r with Ok x => k x w | Raise e => (Raise e, w) end.
Proof. by destruct r. Qed.

Lemma bind_ret {S T U} (x : T) (k : T -> M S U) (w : World S) : (mret x ≫= k) w = k x w.
Proof. reflexivity. Qed.

Lemma bind_assoc {S T U V} (m : M S T) (k1 : T -> M S U) (k2 : U -> M S V) (w : World S) :
  ((m ≫= k1) ≫= k2) w = (m ≫= (fun x => k1 x ≫= k2)) w.
Proof. unfold mbind, M_bind. by destruct (m w) as [[x|e] w']. Qed.

Lemma bind_A_invoke {T} (c : A.Call) (k : PyVal -> M A.Globals T) (w : World A.Globals) :
  (A.invoke c ≫= k) w
  = match and_then (decode (exchange w (A_request (store w) c))) (A_returned c) with
    | Ok v => k v (logged w (A_request (store w) c))
    | Raise e => (Raise e, logged w (A_request (store w) c))
    end.
Proof. unfold mbind, M_bind. by rewrite A_invoke_run. Qed.

Lemma bind_B_invoke {T} (self : nat) (bot : B.Bot) (c : B.Call) (k : PyVal -> M B.Heap T)
    (w : World B.Heap) :
  store w !! self = Some bot ->
  (B.invoke self c ≫= k) w
  = match decode (exchange w (B_request bot c)) with
    | Ok v => k v (logged w (B_request bot c))
    | Raise e => (Raise e, logged w (B_request bot c))
    end.
Proof.
  intros Hself. unfold mbind, M_bind. by rewrite (B_invoke_run self bot c w Hself).
Qed.

Lemma bind_HoneycombBot {T} (g : B.Globals) (key base : option string)
    (k : nat -> M B.Heap T) (w : World B.Heap) :
  (B.HoneycombBot g key base ≫= k) w
  = k (fresh (dom (store w)))
      (mkWorld (<[fresh (dom (store w)) :=
                   B.mkBot key (arg base (B.BASE_URL g)) (B_headers key)]> (store w))
               (sent w) (stdout w) (server w)).
Proof. reflexivity. Qed.

Lemma py_get_error (v : PyVal) (key : string) (dflt : PyVal) (e : PyExc) :
  py_get v key dflt = Raise e -> no_network_error e.
Proof. destruct v; cbn; intros [= <-]; done. Qed.

Lemma py_len_error (v : PyVal) (e : PyExc) : py_len v = Raise e -> no_network_error e.
Proof. destruct v; cbn; intros [= <-]; done. Qed.

Lemma py_first_error (v : PyVal) (e : PyExc) : py_first v = Raise e -> no_network_error e.
Proof.
  destruct v as [| | | |s|l|d]; cbn; try (intros [= <-]; done).
  - destruct s; intros [= <-]; done.
  - destruct l; intros [= <-]; done.
Qed.

Lemma py_slice_to_error (n : nat) (v : PyVal) (e : PyExc) :
  py_slice_to n v = Raise e -> no_network_error e.
Proof. destruct v; cbn; intros [= <-]; done. Qed.

Lemma py_item_error (v : PyVal) (key : string) (e : PyExc) :
  py_item v key = Raise e -> no_network_error e.
Proof.
  destruct v as [| | | | | |d]; cbn; try (intros [= <-]; done).
  destruct (dict_lookup key d); intros [= <-]; done.
Qed.

Lemma py_iter_error (v : PyVal) (e : PyExc) : py_iter v = Raise e -> no_network_error e.
Proof. destruct v; cbn; intros [= <-]; done. Qed.

Lemma decode_no_reply (o : NetOutcome) : decode o = Raise ConnectionError -> o = NoReply.
Proof.
  unfold decode. destruct o as [r| |name]; [|done..].
  destruct (error_status (status_code r)); [done|]. by destruct (body_json r).
Qed.

Lemma returned_error (o : NetOutcome) (c : A.Call) (e : PyExc) :
  and_then (decode o) (A_returned c) = Raise e -> decode o = Raise e \/ no_network_error e.
Proof.
  destruct (decode o) as [v|e'] eqn:Hd; cbn; [|intros [= <-]; by left].
  intros H. right. destruct c; cbn in H; try done; by apply py_get_error in H.
Qed.

(** The methods as calls, so that the run lemmas apply. *)
Ltac fold_calls :=
  change (B.get_me ?s) with (B.invoke s B.GetMe) in *;
  change (B.create_post ?s ?t ?b ?g) with (B.invoke s (B.CreatePost t b g)) in *;
  change (B.vote_on_post ?s ?p ?d) with (B.invoke s (B.VoteOnPost p d)) in *;
  change (B.get_feed ?s ?l ?o) with (B.invoke s (B.GetFeed l o)) in *;
  change (B.enable_heartbeat ?s ?i ?m ?t ?p)
    with (B.invoke s (B.EnableHeartbeat i m t p)) in *;
  change A.get_profile with (A.invoke A.GetProfile) in *;
  change (A.get_feed ?s) with (A.invoke (A.GetFeed s)) in *;
  change (A.create_post ?t ?b ?g) with (A.invoke (A.CreatePost t b g)) in *;
  change (A.comment ?p ?b) with (A.invoke (A.Comment p b)) in *;
  change (A.vote ?p ?d) with (A.invoke (A.Vote p d)) in *.

Ltac live := cbn [store logged printed printed_lines]; apply lookup_insert_eq.

(** The reply to a request, read in the world the script started from. *)
Ltac tidy_reply E :=
  unfold exchange in E;
  cbn [store sent server logged printed printed_lines] in E.

(** One statement of a script: the goal splits on how the statement ends. *)
Ltac step :=
  lazymatch goal with
  | |- context [((?m ≫= ?k1) ≫= ?k2) ?w] => rewrite (bind_assoc m k1 k2 w)
  | |- context [(mret ?x ≫= ?k) ?w] => rewrite (bind_ret x k w)
  | |- context [(print ?l ≫= ?k) ?w] => rewrite (bind_print l k w)
  | |- context [(lift (Ok ?x) ≫= ?k) ?w] => rewrite (bind_lift (Ok x) k w); cbv beta iota
  | |- context [(lift ?r ≫= ?k) ?w] =>
      rewrite (bind_lift r k w);
      let E := fresh "Eval" in destruct r eqn:E
  | |- context [(B.invoke ?s ?c ≫= ?k) ?w] =>
      erewrite (bind_B_invoke s _ c k w) by live;
      let E := fresh "Ereply" in
      lazymatch goal with
      | |- context [match decode ?o with _ => _ end] =>
          destruct (decode o) eqn:E; tidy_reply E
      end
  | |- context [(A.invoke ?c ≫= ?k) ?w] =>
      rewrite (bind_A_invoke c k w);
      let E := fresh "Ereply" in
      lazymatch goal with
      | |- context [match and_then ?o ?f with _ => _ end] =>
          destruct (and_then o f) eqn:E; tidy_reply E
      end
  | |- context [if py_truthy ?v then _ else _] =>
      let E := fresh "Etruthy" in destruct (py_truthy v) eqn:E; cbn [negb]
  end.

(** Where a run has come to. *)
Ltac at_end :=
  unfold print;
  cbn [fst snd store sent stdout server logged printed printed_lines mret M_ret].

Ltac trace_eq := at_end; rewrite <- ?app_assoc; reflexivity.

(** The end of a run that an exception cut short: either an exchange failed,
    and it is the last one, or a value was not of the shape the script wants. *)
Ltac local_end H :=
  first [ apply py_get_error in H | apply py_len_error in H | apply py_first_error in H
        | apply py_slice_to_error in H | apply py_item_error in H | apply py_iter_error in H ];
  split; [intros r [= ->]; destruct H | intros [= ->]; destruct H].

Ltac failed_end :=
  at_end;
  lazymatch goal with
  | |- (forall r, Ok _ = _ -> _) /\ _ => split; [intros r [=] | intros [=]]
  | E : decode (server ?w ?h ?q) = Raise ?e |- _ =>
      split;
      [ intros r [= ->]; apply decode_http_error in E as [E Herr];
        exists h, q; split; [reflexivity | by split]
      | intros [= ->]; apply decode_no_reply in E; exists h, q; by split ]
  | E : and_then (decode (server ?w ?h ?q)) _ = Raise ?e |- _ =>
      apply returned_error in E as [E|E];
      [ split;
        [ intros r [= ->]; apply decode_http_error in E as [E Herr];
          exists h, q; split; [reflexivity | by split]
        | intros [= ->]; apply decode_no_reply in E; exists h, q; by split ]
      | split; [intros r [= ->]; destruct E | intros [= ->]; destruct E] ]
  | H : no_network_error ?e |- _ =>
      split; [intros r [= ->]; destruct H | intros [= ->]; destruct H]
  | E : _ = Raise ?e |- _ => local_end E
  end.

(** Each request of a trace has the headers and the base URL expected. *)
Ltac all_requests :=
  cbn [app];
  repeat (constructor; [split; [reflexivity | by eexists]|]);
  constructor.

Lemma returned_ok (o : NetOutcome) (c : A.Call) (v : PyVal) :
  and_then (decode o) (A_returned c) = Ok v ->
  exists body, decode o = Ok body /\ A_returned c body = Ok v.
Proof. destruct (decode o) as [body|]; [|done]. intros H. by exists body. Qed.

Lemma printed_no_lines {S} (w : World S) : printed_lines w [] = w.
Proof. destruct w. unfold printed_lines. cbn. by rewrite app_nil_r. Qed.

Lemma printed_more_lines {S} (w : World S) (line : string) (lines : list string) :
  printed_lines (printed w line) lines = printed_lines w (line :: lines).
Proof. unfold printed_lines, printed. cbn. by rewrite <- app_assoc. Qed.

Section Scripts.

Variable py_str : PyVal -> string.
Variable chr : Z -> string.

(** The loop of bot-example.py over the posts it shows: it only prints, one
    line for each post, and stops at the first post that is not a dict with a
    [title]. *)
Lemma show_posts_run (items : list PyVal) (i : Z) (w : World A.Globals) :
  exists lines,
    snd (A.show_posts py_str chr i items w) = printed_lines w lines
    /\ match fst (A.show_posts py_str chr i items w) with
       | Ok _ => length lines = length items
       | Raise e => no_network_error e
       end.
Proof.
  revert i w. induction items as [|post items IH]; intros i w.
  - exists []. by rewrite printed_no_lines.
  - cbn [A.show_posts]. rewrite bind_lift.
    destruct (py_item post "title") as [title|e] eqn:Htitle.
    + rewrite bind_lift.
      destruct (py_get post "upvotes" (PyInt 0)) as [upvotes|e] eqn:Hup.
      * rewrite bind_print.
        destruct (IH (i + 1) (printed w (py_str (PyInt i) +:+ ". " +:+ py_str title +:+ " ("
                     +:+ chr 128077 +:+ " " +:+ py_str upvotes +:+ ")")))
          as [lines [Hw Hres]].
        eexists. rewrite Hw, printed_more_lines. split; [reflexivity|].
        destruct (fst (A.show_posts _ _ _ _ _)); [|done]. cbn. by rewrite Hres.
      * exists []. rewrite printed_no_lines. split; [done|]. by apply py_get_error in Hup.
    + exists []. rewrite printed_no_lines. split; [done|]. by apply py_item_error in Htitle.
Qed.

(** The requests of [main] of honeycomb_bot.py, whatever the server answers. *)
Lemma B_main_trace (g : B.Globals) (w : World B.Heap) :
  truthy_str (B.API_KEY g) = true ->
  exists reqs post_id,
    sent (snd (B.main py_str g w)) = sent w ++ reqs
    /\ store (snd (B.main py_str g w))
       = <[fresh (dom (store w)) :=
             B.mkBot (B.API_KEY g) (B.BASE_URL g) (B_headers (B.API_KEY g))]> (store w)
    /\ Forall (fun r => req_headers r = B_headers (B.API_KEY g)
                        /\ exists path, req_url r = B.BASE_URL g +:+ "/bot/" +:+ path) reqs
    /\ map route reqs `prefix_of`
         [(GET, B.BASE_URL g +:+ "/bot/me");
          (POST, B.BASE_URL g +:+ "/bot/heartbeat/enable");
          (POST, B.BASE_URL g +:+ "/bot/posts");
          (GET, B.BASE_URL g +:+ "/bot/feed");
          (POST, B.BASE_URL g +:+ "/bot/posts/" +:+ post_id +:+ "/vote")].
Proof.
  intros Hkey. unfold B.main. rewrite Hkey. cbn [negb].
  fold_calls. rewrite bind_HoneycombBot.
  repeat step;
    first [ eexists; exists ""; split; [trace_eq|]; split; [done|];
            split; [all_requests|]; by eexists
          | eexists; eexists; split; [trace_eq|]; split; [done|];
            split; [all_requests|]; by eexists ].
Qed.

(** [main] of honeycomb_bot.py, with a key, builds one client and sends its
    requests in a fixed order, each with the key: the profile, the heartbeat,
    the post, the feed, and last a vote on one post.  A run sends a prefix of
    that sequence and nothing else. *)
Theorem B_main_routes (g : B.Globals) (w : World B.Heap) :
  truthy_str (B.API_KEY g) = true ->
  exists reqs post_id,
    sent (snd (B.main py_str g w)) = sent w ++ reqs
    /\ store (snd (B.main py_str g w))
       = <[fresh (dom (store w)) :=
             B.mkBot (B.API_KEY g) (B.BASE_URL g) (B_headers (B.API_KEY g))]> (store w)
    /\ Forall (fun r => req_headers r = B_headers (B.API_KEY g)
                        /\ exists path, req_url r = B.BASE_URL g +:+ "/bot/" +:+ path) reqs
    /\ map route reqs `prefix_of`
         [(GET, B.BASE_URL g +:+ "/bot/me");
          (POST, B.BASE_URL g +:+ "/bot/heartbeat/enable");
          (POST, B.BASE_URL g +:+ "/bot/posts");
          (GET, B.BASE_URL g +:+ "/bot/feed");
          (POST, B.BASE_URL g +:+ "/bot/posts/" +:+ post_id +:+ "/vote")].
Proof. intros Hkey. exact (B_main_trace g w Hkey). Qed.


(** A run of [main] of honeycomb_bot.py that ends well has made the four
    calls, the feed being asked for with [limit=5] and [offset=0] after the
    other three; it went on to vote exactly when the [posts] of the feed were
    not empty, the vote being an "up" on the [id] of the first post. *)
Theorem B_main_success (g : B.Globals) (w : World B.Heap) :
  truthy_str (B.API_KEY g) = true ->
  fst (B.main py_str g w) = Ok tt ->
  exists r1 r2 r3 r4 rest envelope posts,
    sent (snd (B.main py_str g w)) = sent w ++ [r1; r2; r3; r4] ++ rest
    /\ map route [r1; r2; r3; r4]
       = [(GET, B.BASE_URL g +:+ "/bot/me");
          (POST, B.BASE_URL g +:+ "/bot/heartbeat/enable");
          (POST, B.BASE_URL g +:+ "/bot/posts");
          (GET, B.BASE_URL g +:+ "/bot/feed")]
    /\ req_params r4 = Some [("limit", PyInt 5); ("offset", PyInt 0)]
    /\ decode (server w (sent w ++ [r1; r2; r3]) r4) = Ok envelope
    /\ py_get envelope "posts" (PyList []) = Ok posts
    /\ if py_truthy posts
       then exists first post_id rv,
              py_first posts = Ok first
              /\ py_item first "id" = Ok post_id
              /\ rest = [rv]
              /\ route rv = (POST, B.BASE_URL g +:+ "/bot/posts/" +:+ py_str post_id +:+ "/vote")
              /\ req_json rv = Some (PyDict [("direction", PyStr "up")])
       else rest = [].
Proof.
  intros Hkey. unfold B.main. rewrite Hkey. cbn [negb].
  fold_calls. rewrite bind_HoneycombBot.
  repeat step; at_end; try discriminate; intros _; rewrite <- ?app_assoc in *.
  - do 7 eexists. split; [trace_eq|]. do 2 (split; [reflexivity|]).
    do 2 (split; [eassumption|]). rewrite Etruthy.
    do 3 eexists. do 2 (split; [eassumption|]). by repeat split.
  - do 7 eexists. split; [trace_eq|]. do 2 (split; [reflexivity|]).
    do 2 (split; [eassumption|]). by rewrite Etruthy.
Qed.

(** The first failure of an exchange ends [main] of honeycomb_bot.py: an
    [HTTPError] out of [main] carries the reply, of error status, to the last
    request sent, and a [ConnectionError] means the last request sent got no
    reply.  Nothing is sent after a failed call. *)
Theorem B_main_fails_fast (g : B.Globals) (w : World B.Heap) :
  (forall r, fst (B.main py_str g w) = Raise (HTTPError r) ->
     exists hist req,
       sent (snd (B.main py_str g w)) = hist ++ [req]
       /\ server w hist req = Reply r
       /\ error_status (status_code r) = true)
  /\ (fst (B.main py_str g w) = Raise ConnectionError ->
     exists hist req,
       sent (snd (B.main py_str g w)) = hist ++ [req]
       /\ server w hist req = NoReply).
Proof.
  unfold B.main. destruct (truthy_str (B.API_KEY g)); cbn [negb]; [|by split].
  fold_calls. rewrite bind_HoneycombBot.
  repeat step; failed_end.
Qed.

(** The loop as one statement of the script. *)
Ltac step_loop :=
  lazymatch goal with
  | |- context [(A.show_posts ?p ?c ?i ?items ≫= ?k) ?w] =>
      let lines := fresh "lines" in
      let Hw := fresh "Hworld" in
      let Hres := fresh "Hshown" in
      destruct (show_posts_run items i w) as [lines [Hw Hres]];
      change ((A.show_posts p c i items ≫= k) w)
        with (match A.show_posts p c i items w with
              | (Ok x, w') => k x w'
              | (Raise e, w') => (Raise e, w')
              end);
      destruct (A.show_posts p c i items w) as [[[]|?] ?];
      cbn [fst snd] in Hw, Hres; subst
  end.

(** The requests of [main] of bot-example.py, whatever the server answers. *)
Lemma A_main_trace (w : World A.Globals) :
  exists reqs post_id,
    sent (snd (A.main py_str chr w)) = sent w ++ reqs
    /\ store (snd (A.main py_str chr w)) = store w
    /\ Forall (fun r => req_headers r = A.HEADERS (store w)
                        /\ exists path,
                             req_url r = A.API_BASE (store w) +:+ "/api/bot/" +:+ path) reqs
    /\ (map route reqs `prefix_of`
          [(GET, A.API_BASE (store w) +:+ "/api/bot/me");
           (GET, A.API_BASE (store w) +:+ "/api/bot/feed?sort=new");
           (POST, A.API_BASE (store w) +:+ "/api/bot/posts")]
        \/ map route reqs `prefix_of`
             [(GET, A.API_BASE (store w) +:+ "/api/bot/me");
              (GET, A.API_BASE (store w) +:+ "/api/bot/feed?sort=new");
              (POST, A.API_BASE (store w) +:+ "/api/bot/posts/" +:+ post_id +:+ "/vote");
              (POST, A.API_BASE (store w) +:+ "/api/bot/posts/" +:+ post_id +:+ "/comments")]).
Proof.
  unfold A.main. fold_calls.
  repeat first [step | step_loop];
    first [ eexists; exists ""; split; [trace_eq|]; split; [done|];
            split; [all_requests|]; first [left; by eexists | right; by eexists]
          | eexists; eexists; split; [trace_eq|]; split; [done|];
            split; [all_requests|]; right; by eexists ].
Qed.

(** [main] of bot-example.py asks for the profile, then for the newest feed,
    and then takes one of two ways that never mix: it creates a post, or it
    votes and comments on one and the same post.  A run sends a prefix of one
    of the two sequences, each request with the headers of the module, and
    leaves the globals as they were. *)
Theorem A_main_routes (w : World A.Globals) :
  exists reqs post_id,
    sent (snd (A.main py_str chr w)) = sent w ++ reqs
    /\ store (snd (A.main py_str chr w)) = store w
    /\ Forall (fun r => req_headers r = A.HEADERS (store w)
                        /\ exists path,
                             req_url r = A.API_BASE (store w) +:+ "/api/bot/" +:+ path) reqs
    /\ (map route reqs `prefix_of`
          [(GET, A.API_BASE (store w) +:+ "/api/bot/me");
           (GET, A.API_BASE (store w) +:+ "/api/bot/feed?sort=new");
           (POST, A.API_BASE (store w) +:+ "/api/bot/posts")]
        \/ map route reqs `prefix_of`
             [(GET, A.API_BASE (store w) +:+ "/api/bot/me");
              (GET, A.API_BASE (store w) +:+ "/api/bot/feed?sort=new");
              (POST, A.API_BASE (store w) +:+ "/api/bot/posts/" +:+ post_id +:+ "/vote");
              (POST, A.API_BASE (store w) +:+ "/api/bot/posts/" +:+ post_id +:+ "/comments")]).
Proof. exact (A_main_trace w). Qed.

(** A run of [main] of bot-example.py that ends well has asked for the
    profile and the feed, and then: when the [posts] of the feed were empty (or
    missing), it has created one post and nothing else; otherwise it has sent
    an "up" vote and then a comment, both on the [id] of the first post. *)
Theorem A_main_success (w : World A.Globals) :
  fst (A.main py_str chr w) = Ok tt ->
  exists r1 r2 rest envelope posts,
    sent (snd (A.main py_str chr w)) = sent w ++ [r1; r2] ++ rest
    /\ map route [r1; r2]
       = [(GET, A.API_BASE (store w) +:+ "/api/bot/me");
          (GET, A.API_BASE (store w) +:+ "/api/bot/feed?sort=new")]
    /\ decode (server w (sent w ++ [r1]) r2) = Ok envelope
    /\ py_get envelope "posts" (PyList []) = Ok posts
    /\ if py_truthy posts
       then exists first post_id rv rc,
              py_first posts = Ok first
              /\ py_item first "id" = Ok post_id
              /\ rest = [rv; rc]
              /\ route rv = (POST, A.API_BASE (store w) +:+ "/api/bot/posts/"
                                    +:+ py_str post_id +:+ "/vote")
              /\ req_json rv = Some (PyDict [("direction", PyStr "up")])
              /\ route rc = (POST, A.API_BASE (store w) +:+ "/api/bot/posts/"
                                    +:+ py_str post_id +:+ "/comments")
       else exists rp,
              rest = [rp]
              /\ route rp = (POST, A.API_BASE (store w) +:+ "/api/bot/posts").
Proof.
  unfold A.main. fold_calls.
  repeat first [step | step_loop]; at_end; try discriminate; intros _;
    rewrite <- ?app_assoc in *;
    match goal with
    | H : and_then (decode _) (A_returned (A.GetFeed _)) = Ok _ |- _ =>
        apply returned_ok in H as [envelope [Henv Hposts]]
    end;
    do 5 eexists; (split; [trace_eq|]); (split; [reflexivity|]);
    (split; [exact Henv|]); (split; [exact Hposts|]);
    match goal with H : py_truthy _ = _ |- _ => rewrite H end;
    first [ do 4 eexists; do 2 (split; [eassumption|]); by repeat split
          | eexists; by split ].
Qed.

(** The first failure of an exchange ends [main] of bot-example.py: an
    [HTTPError] out of [main] carries the reply, of error status, to the last
    request sent, and a [ConnectionError] means the last request sent got no
    reply.  Nothing is sent after a failed call. *)
Theorem A_main_fails_fast (w : World A.Globals) :
  (forall r, fst (A.main py_str chr w) = Raise (HTTPError r) ->
     exists hist req,
       sent (snd (A.main py_str chr w)) = hist ++ [req]
       /\ server w hist req = Reply r
       /\ error_status (status_code r) = true)
  /\ (fst (A.main py_str chr w) = Raise ConnectionError ->
     exists hist req,
       sent (snd (A.main py_str chr w)) = hist ++ [req]
       /\ server w hist req = NoReply).
Proof.
  unfold A.main. fold_calls.
  repeat first [step | step_loop]; failed_end.
Qed.

(** A run of [main] of bot-example.py that ends well on a feed whose [posts]
    are a list calls [print] seven times and once more for each of the first
    five posts: however long the feed, no more than five posts are listed.
    (The count is of calls, not of lines: some of the texts hold line
    feeds.) *)
Theorem A_main_lists_at_most_five (w : World A.Globals) (r1 r2 : Request)
    (rest : list Request) (envelope : PyVal) (posts : list PyVal) :
  fst (A.main py_str chr w) = Ok tt ->
  sent (snd (A.main py_str chr w)) = sent w ++ [r1; r2] ++ rest ->
  decode (server w (sent w ++ [r1]) r2) = Ok envelope ->
  py_get envelope "posts" (PyList []) = Ok (PyList posts) ->
  length (stdout (snd (A.main py_str chr w)))
  = (length (stdout w) + 7 + min 5 (length posts))%nat.
Proof.
  unfold A.main. fold_calls.
  repeat first [step | step_loop]; at_end; try discriminate; intros _;
    rewrite <- ?app_assoc in *; intros Hsent Henv Hposts;
    apply app_inv_head in Hsent; injection Hsent as <- <- _;
    match goal with
    | H : and_then (decode _) (A_returned (A.GetFeed _)) = Ok _ |- _ =>
        apply returned_ok in H as [envelope' [Henv' Hposts']]
    end;
    pose proof (eq_trans (eq_sym Henv) Henv') as Heq; injection Heq as <-;
    pose proof (eq_trans (eq_sym Hposts) Hposts') as Heq; injection Heq as <-;
    first
      [ match goal with
        | H1 : py_slice_to 5 (PyList posts) = Ok ?a,
          H2 : py_iter ?a = Ok ?b,
          H3 : length _ = length ?b |- _ =>
            cbn in H1; injection H1 as <-; cbn in H2; injection H2 as <-;
            rewrite length_take in H3
        end;
        rewrite !length_app; cbn [length]; lia
      | match goal with
        | H : py_truthy (PyList posts) = false |- _ => destruct posts; [|discriminate H]
        end;
        rewrite !length_app; cbn [length]; lia ].
Qed.

(** Started from an environment, bot-example.py sends at most four requests,
    each with the key of the environment as [X-API-Key] and under
    [HONEYCOMB_API_URL] (or the placeholder URL); without a key it sends
    none and exits with status 1. *)
Theorem A_script_requests (environ : gmap string string) (w : World unit) :
  exists reqs,
    sent (snd (A.script py_str chr environ w)) = sent w ++ reqs
    /\ (length reqs <= 4)%nat
    /\ Forall (fun r =>
                 req_headers r = A_headers (environ !! "HONEYCOMB_API_KEY")
                 /\ exists path,
                      req_url r
                      = default "https://your-honeycomb-url.replit.app"
                                (environ !! "HONEYCOMB_API_URL")
                        +:+ "/api/bot/" +:+ path) reqs
    /\ (truthy_str (environ !! "HONEYCOMB_API_KEY") = false ->
        reqs = [] /\ fst (A.script py_str chr environ w) = Raise (SystemExit 1)).
Proof.
  unfold A.script, A.module_top.
  destruct (truthy_str (environ !! "HONEYCOMB_API_KEY")) eqn:Hkey; cbn [negb].
  - run_monad. unfold with_globals.
    set (g := A.mkGlobals _ _ _).
    set (w' := mkWorld g (sent w) (stdout w) (server w)).
    destruct (A_main_trace w') as [reqs [post_id [Hsent [_ [Hall Hroutes]]]]].
    exists reqs. cbn [fst snd sent]. split; [exact Hsent|]. split; [|split; [exact Hall|done]].
    destruct Hroutes as [H|H]; apply prefix_length in H;
      rewrite length_map in H; cbn in H; lia.
  - exists []. run_monad. split; [by rewrite app_nil_r|]. split; [lia|]. split; [constructor|done].
Qed.

(** Started from an environment, honeycomb_bot.py sends at most five
    requests, each with the key of the environment as [X-Bot-API-Key] and under
    [HONEYCOMB_BASE_URL] (or https://thehoneycomb.social/api); without a key it
    sends none, builds no client and ends normally. *)
Theorem B_script_requests (environ : gmap string string) (w : World B.Heap) :
  exists reqs,
    sent (snd (B.script py_str environ w)) = sent w ++ reqs
    /\ (length reqs <= 5)%nat
    /\ Forall (fun r =>
                 req_headers r = B_headers (environ !! "HONEYCOMB_API_KEY")
                 /\ exists path,
                      req_url r
                      = default "https://thehoneycomb.social/api"
                                (environ !! "HONEYCOMB_BASE_URL")
                        +:+ "/bot/" +:+ path) reqs
    /\ (truthy_str (environ !! "HONEYCOMB_API_KEY") = false ->
        reqs = []
        /\ fst (B.script py_str environ w) = Ok tt
        /\ store (snd (B.script py_str environ w)) = store w).
Proof.
  unfold B.script.
  destruct (truthy_str (environ !! "HONEYCOMB_API_KEY")) eqn:Hkey.
  - destruct (B_main_trace (B.module_top environ) w Hkey)
      as [reqs [post_id [Hsent [_ [Hall Hroutes]]]]].
    exists reqs. split; [exact Hsent|]. split; [|split; [exact Hall|done]].
    apply prefix_length in Hroutes. rewrite length_map in Hroutes. cbn in Hroutes. lia.
  - exists []. unfold B.main. cbn [B.module_top B.API_KEY]. rewrite Hkey. cbn.
    split; [by rewrite app_nil_r|]. split; [lia|]. split; [constructor|done].
Qed.

End Scripts.

(** [B_main_routes] on a run that goes through to the vote. *)
Lemma B_main_routes_witness :
  exists reqs,
    sent (snd (B.main show_str keyed_B (world_B one_for_all))) = reqs
    /\ Forall (fun r => req_headers r = B_headers (Some "hcb_1")
                        /\ exists path, req_url r = "https://hive.example/api" +:+ "/bot/" +:+ path)
         reqs.
Proof.
  destruct (B_main_routes show_str keyed_B (world_B one_for_all) eq_refl)
    as [reqs [post_id [Hsent [_ [Hall _]]]]].
  exists reqs. split; [exact Hsent | exact Hall].
Defined.

(** [B_main_success] on a feed of one post: the run ends with a vote. *)
Lemma B_main_success_witness :
  exists r1 r2 r3 r4 rest,
    sent (snd (B.main show_str keyed_B (world_B one_for_all))) = [r1; r2; r3; r4] ++ rest
    /\ req_params r4 = Some [("limit", PyInt 5); ("offset", PyInt 0)].
Proof.
  destruct (B_main_success show_str keyed_B (world_B one_for_all) eq_refl eq_refl)
    as [r1 [r2 [r3 [r4 [rest [envelope [posts [Hsent [_ [Hparams _]]]]]]]]]].
  exists r1, r2, r3, r4, rest. split; [exact Hsent | exact Hparams].
Defined.

(** [B_main_fails_fast] when the profile is refused: one request, no more. *)
Lemma B_main_fails_fast_witness :
  exists hist req,
    sent (snd (B.main show_str keyed_B (world_B not_found))) = hist ++ [req]
    /\ server (world_B not_found) hist req = Reply not_found
    /\ error_status (status_code not_found) = true.
Proof.
  apply (proj1 (B_main_fails_fast show_str keyed_B (world_B not_found)) not_found).
  reflexivity.
Defined.

(** [A_main_success] on a feed of one post: a vote, then a comment. *)
Lemma A_main_success_witness :
  exists r1 r2 rest envelope posts,
    sent (snd (A.main show_str star (world_A one_for_all))) = [r1; r2] ++ rest
    /\ decode (always one_for_all [r1] r2) = Ok envelope
    /\ py_get envelope "posts" (PyList []) = Ok posts.
Proof.
  destruct (A_main_success show_str star (world_A one_for_all) eq_refl)
    as [r1 [r2 [rest [envelope [posts [Hsent [_ [Henv [Hposts _]]]]]]]]].
  exists r1, r2, rest, envelope, posts.
  split; [exact Hsent|]. split; [exact Henv | exact Hposts].
Defined.

(** [A_main_fails_fast] when the network is down from the start. *)
Lemma A_main_fails_fast_witness :
  exists hist req,
    sent (snd (A.main show_str star offline_A)) = hist ++ [req]
    /\ server offline_A hist req = NoReply.
Proof.
  apply (proj2 (A_main_fails_fast show_str star offline_A)). reflexivity.
Defined.

(** [A_main_lists_at_most_five] on a feed of one post: eight calls of [print]. *)
Lemma A_main_lists_at_most_five_witness :
  length (stdout (snd (A.main show_str star (world_A one_for_all)))) = 8%nat.
Proof.
  apply (A_main_lists_at_most_five show_str star (world_A one_for_all)
           (A_request demo_globals A.GetProfile)
           (A_request demo_globals (A.GetFeed (Some "new")))
           [A_request demo_globals (A.Vote "p1" "up");
            A_request demo_globals
              (A.Comment "p1"
                 ("Great post! This comment was added by a Python bot. "
                  +:+ star 128013 +:+ star 129302))]
           (PyDict [("name", PyStr "bee"); ("title", PyStr "T"); ("posts", PyList [post_p1])])
           [post_p1]);
    reflexivity.
Defined.

(** Both scripts started without a key. *)
Lemma A_script_requests_witness :
  fst (A.script show_str star no_key_environ blank_world) = Raise (SystemExit 1).
Proof.
  destruct (A_script_requests show_str star no_key_environ blank_world)
    as [reqs [_ [_ [_ Hnokey]]]].
  exact (proj2 (Hnokey eq_refl)).
Defined.

Lemma B_script_requests_witness :
  fst (B.script show_str no_key_environ fresh_world_B) = Ok tt.
Proof.
  destruct (B_script_requests show_str no_key_environ fresh_world_B)
    as [reqs [_ [_ [_ Hnokey]]]].
  exact (proj1 (proj2 (Hnokey eq_refl))).
Defined.
